(** * FutureForms.Client, package jsondb: the request builders AnySQL and Insert

    A shallow embedding of [src/jsondb/AnySQL.ts] and of the [Insert] class
    (jsondb/Insert.ts), with the properties of the request/response contract
    they implement.

    Both classes are written against untyped JSON ([request:any],
    [response:any]); the embedding therefore works over a small universe of
    JavaScript values and follows JavaScript's rules for truthiness, for
    [x != null], for property reads and for reads past the end of an array.
    Methods are computations in a state-and-exception monad whose state holds
    the instance ([this]) and the log of the requests handed to
    [Session.invoke]. *)

From Stdlib Require Import ZArith String Ascii List Bool Lia.
From stdpp Require Import base strings gmap list.

Open Scope string_scope.
Open Scope list_scope.

(** ** JavaScript values *)

Set Warnings "-register-all".

(** The values that travel through requests and responses.  Numbers are only
    used for row counts and page sizes, so they are integers here. *)
Inductive JsVal : Type :=
| JUndefined
| JNull
| JBool (b : bool)
| JNum (n : Z)
| JStr (s : string)
| JArr (items : list JsVal)
| JObj (fields : list (string * JsVal)).

(** [if (v)] *)
Definition truthy (v : JsVal) : bool :=
  match v with
  | JUndefined | JNull => false
  | JBool b => b
  | JNum n => negb (n =? 0)%Z
  | JStr s => negb (String.eqb s "")
  | JArr _ | JObj _ => true
  end.

(** [v == null] *)
Definition nullish (v : JsVal) : bool :=
  match v with
  | JUndefined | JNull => true
  | _ => false
  end.

(** [Array.isArray(v)] *)
Definition isArray (v : JsVal) : bool :=
  match v with
  | JArr _ => true
  | _ => false
  end.

(** Own properties of an object literal, in insertion order. *)
Fixpoint assoc (k : string) (fs : list (string * JsVal)) : JsVal :=
  match fs with
  | [] => JUndefined
  | (k', v) :: rest => if String.eqb k k' then v else assoc k rest
  end.

Fixpoint setf (k : string) (v : JsVal) (fs : list (string * JsVal))
  : list (string * JsVal) :=
  match fs with
  | [] => [(k, v)]
  | (k', v') :: rest =>
      if String.eqb k k' then (k, v) :: rest else (k', v') :: setf k v rest
  end.

Fixpoint has_key (k : string) (fs : list (string * JsVal)) : bool :=
  match fs with
  | [] => false
  | (k', _) :: rest => String.eqb k k' || has_key k rest
  end.

(** [o.k] (or [o["k"]]) for a value that is not null or undefined: none of the
    names read by this code is a built-in property of a string, number,
    boolean or array, so those reads give [undefined]. *)
Definition prop (o : JsVal) (k : string) : JsVal :=
  match o with
  | JObj fs => assoc k fs
  | _ => JUndefined
  end.

(** ["k" in o], for own properties. *)
Definition has_prop (o : JsVal) (k : string) : bool :=
  match o with
  | JObj fs => has_key k fs
  | _ => false
  end.

(** [o.k1.k2...kn = v] on a request literal.  The intermediate objects are
    the ones the literal was built with. *)
Fixpoint set_path (o : JsVal) (path : list string) (v : JsVal) : JsVal :=
  match path with
  | [] => v
  | k :: rest =>
      match o with
      | JObj fs => JObj (setf k (set_path (assoc k fs) rest v) fs)
      | _ => o
      end
  end.

(** [a[i]]: [undefined] past the end of the array. *)
Definition index (a : list JsVal) (i : nat) : JsVal :=
  match a !! i with
  | Some v => v
  | None => JUndefined
  end.

(** [String.prototype.toLowerCase] on strings of ASCII characters, where it
    changes the letters A to Z and nothing else.  On other characters
    JavaScript follows the Unicode case mappings, which this function does
    not: a statement that depends on the lower-cased form of a name takes
    the name to be ASCII ([ascii_string]) or fixes it. *)
Definition lower_ascii (c : ascii) : ascii :=
  let n := nat_of_ascii c in
  if (65 <=? n)%nat && (n <=? 90)%nat then ascii_of_nat (n + 32) else c.

Fixpoint toLowerCase (s : string) : string :=
  match s with
  | EmptyString => EmptyString
  | String c rest => String (lower_ascii c) (toLowerCase rest)
  end.

(** ** Computations: state and exceptions *)

Inductive Exn : Type :=
| TypeError
| Thrown (v : JsVal).

Inductive Outcome (A : Type) : Type :=
| Return (a : A)
| Throw (e : Exn).
Arguments Return {A} a.
Arguments Throw {A} e.

Definition M (S A : Type) : Type := S -> Outcome A * S.

Definition ret {S A : Type} (a : A) : M S A := fun s => (Return a, s).

Definition bind {S A B : Type} (m : M S A) (k : A -> M S B) : M S B :=
  fun s =>
    match m s with
    | (Return a, s') => k a s'
    | (Throw e, s') => (Throw e, s')
    end.

Definition throw {S A : Type} (e : Exn) : M S A := fun s => (Throw e, s).

Definition gets {S A : Type} (f : S -> A) : M S A := fun s => (Return (f s), s).

Definition modify {S : Type} (f : S -> S) : M S unit := fun s => (Return tt, f s).

Declare Scope js_scope.
Delimit Scope js_scope with js.
Notation "x <- m ;; k" := (bind m (fun x => k))
  (at level 100, m at next level, right associativity) : js_scope.
Notation "m ;;; k" := (bind m (fun _ => k))
  (at level 100, right associativity) : js_scope.
Open Scope js_scope.

(** [o.k] as a step of a method: a TypeError when [o] is null or undefined. *)
Definition getprop {S : Type} (o : JsVal) (k : string) : M S JsVal :=
  if nullish o then throw TypeError else ret (prop o k).

(** [o.forEach(body)]: a TypeError unless [o] is an array. *)
Fixpoint forEach_items {S A : Type} (items : list JsVal)
    (body : JsVal -> A -> M S A) (acc : A) : M S A :=
  match items with
  | [] => ret acc
  | x :: rest => acc' <- body x acc ;; forEach_items rest body acc'
  end.

Definition forEach {S A : Type} (o : JsVal)
    (body : JsVal -> A -> M S A) (acc : A) : M S A :=
  match o with
  | JArr items => forEach_items items body acc
  | _ => throw TypeError
  end.

(** [s.toLowerCase()] as a step: a TypeError unless [s] is a string. *)
Definition call_toLowerCase {S : Type} (s : JsVal) : M S string :=
  match s with
  | JStr x => ret (toLowerCase x)
  | _ => throw TypeError
  end.

(** ** The collaborators: Session, Messages, ColumnDefinition, Cursor *)

(** Session.ts is outside this slice.  The code reads [sessionID] and calls
    [invoke(request)], which resolves to the backend's response or rejects. *)
Record Session : Type := { sessionID : JsVal }.

(** The requests handed to [Session.invoke] so far, oldest first. *)
Record World : Type := { sent : list JsVal }.

(** A method runs on its instance and the world. *)
Record Env (T : Type) : Type := { this : T; world : World }.
Arguments this {T} e.
Arguments world {T} e.
Arguments Build_Env {T} this world.

(** The transport behind [Session.invoke]: what the session answers to a
    request, given the requests it has seen before. *)
Class Transport : Type :=
  { respond : Session -> list JsVal -> JsVal -> Outcome JsVal }.

(** [await session.invoke(request)] *)
Definition invoke `{Transport} {T : Type} (session : Session) (request : JsVal)
  : M (Env T) JsVal :=
  fun st =>
    (respond session (sent (world st)) request,
     {| this := this st; world := {| sent := sent (world st) ++ [request] |} |}).

(** [this.session$.x]: a TypeError when the session is null. *)
Definition deref {S A : Type} (o : option A) : M S A :=
  match o with
  | Some a => ret a
  | None => throw TypeError
  end.

(** Assignment to a field of [this]. *)
Definition assign {T : Type} (f : T -> T) : M (Env T) unit :=
  modify (fun st => {| this := f (this st); world := world st |}).

(** messages/Messages.ts is outside this slice: [Messages.get(code, who)]
    gives the localized text that the constructor throws. *)
Class Messages : Type := { Messages_get : string -> string -> JsVal }.

(** [ColumnDefinition] of Table.ts: the four fields that [select] fills. *)
Record ColumnDefinition : Type :=
  { name : JsVal; type : JsVal; sqltype : JsVal; precision : JsVal }.

(** Modelled from the spec: the class Cursor (Cursor.ts, not in this slice),
    "a row-iteration wrapper over a select response, bound to column
    metadata".  A cursor is what its constructor
    [new Cursor(session, columns, response)] is given. *)
Record Cursor : Type :=
  { cursor_session : Session;
    cursor_columns : gmap string ColumnDefinition;
    cursor_response : JsVal }.

(** ** AnySQL (src/jsondb/AnySQL.ts) *)

Module AnySQL.

(** The private fields of the class.  TypeScript's types are erased at run
    time, so the fields filled from the response hold whatever it carried. *)
Record t : Type := mk
  { errm_ : JsVal;
    affected_ : JsVal;
    success_ : JsVal;
    source_ : JsVal;
    session_ : option Session;
    savepoint_ : JsVal;
    bindvalues_ : JsVal }.

Definition set_errm (v : JsVal) (a : t) : t :=
  mk v (affected_ a) (success_ a) (source_ a) (session_ a) (savepoint_ a)
     (bindvalues_ a).

Definition set_affected (v : JsVal) (a : t) : t :=
  mk (errm_ a) v (success_ a) (source_ a) (session_ a) (savepoint_ a)
     (bindvalues_ a).

Definition set_success (v : JsVal) (a : t) : t :=
  mk (errm_ a) (affected_ a) v (source_ a) (session_ a) (savepoint_ a)
     (bindvalues_ a).

Definition set_savepoint (v : JsVal) (a : t) : t :=
  mk (errm_ a) (affected_ a) (success_ a) (source_ a) (session_ a) v
     (bindvalues_ a).

Definition set_bindvalues (v : JsVal) (a : t) : t :=
  mk (errm_ a) (affected_ a) (success_ a) (source_ a) (session_ a)
     (savepoint_ a) v.

(** [constructor(session, source, bindvalues?)], lines 57-72.  The field
    initialisers of lines 41-49 run first. *)
Definition constructor `{Messages} (session : option Session) (source : JsVal)
    (bindvalues : JsVal) : M World t :=
  let self :=
    {| errm_ := JNull; affected_ := JNum 0; success_ := JBool true;
       source_ := source; session_ := session;
       savepoint_ := JNull; bindvalues_ := JNull |} in
  let self :=
    if negb (nullish bindvalues) then
      let bindvalues :=
        if negb (isArray bindvalues) then JArr [bindvalues] else bindvalues in
      set_bindvalues bindvalues self
    else self in
  if negb (truthy source) then
    throw (Thrown (Messages_get "SOURCE_IS_NULL" "AnySQL"))
  else
    match session with
    | None => throw (Thrown (Messages_get "SESSION_IS_NULL" "AnySQL"))
    | Some _ => ret self
    end.

(** [failed()] *)
Definition failed (a : t) : bool := negb (truthy (success_ a)).

(** [getErrorMessage()] *)
Definition getErrorMessage (a : t) : JsVal := errm_ a.

(** [get source()] *)
Definition source (a : t) : JsVal := source_ a.

(** [get session()] *)
Definition session (a : t) : option Session := session_ a.

(** [affected()] *)
Definition affected (a : t) : JsVal := affected_ a.

(** [useSavePoint(flag)]; it returns the instance itself. *)
Definition useSavePoint (flag : JsVal) (a : t) : t := set_savepoint flag a.

(** The request built by [execute()], lines 136-150. *)
Definition execute_request (self : t) (session : Session) : JsVal :=
  let request :=
    JObj [("Sql",
           JObj [("invoke", JStr "execute");
                 ("source", source_ self);
                 ("session", sessionID session)])] in
  let request :=
    if truthy (bindvalues_ self)
    then set_path request ["Sql"; "bindvalues"] (bindvalues_ self)
    else request in
  let request :=
    if negb (nullish (savepoint_ self))
    then set_path request ["Sql"; "savepoint"] (savepoint_ self)
    else request in
  request.

(** The request built by [insert()], lines 166-180. *)
Definition insert_request (self : t) (session : Session) : JsVal :=
  let request :=
    JObj [("Sql",
           JObj [("invoke", JStr "insert");
                 ("source", source_ self);
                 ("session", sessionID session)])] in
  let request :=
    if truthy (bindvalues_ self)
    then set_path request ["Sql"; "bindvalues"] (bindvalues_ self)
    else request in
  let request :=
    if negb (nullish (savepoint_ self))
    then set_path request ["Sql"; "savepoint"] (savepoint_ self)
    else request in
  request.

(** The request built by [update()], lines 199-213. *)
Definition update_request (self : t) (session : Session) : JsVal :=
  let request :=
    JObj [("Sql",
           JObj [("invoke", JStr "update");
                 ("source", source_ self);
                 ("session", sessionID session)])] in
  let request :=
    if truthy (bindvalues_ self)
    then set_path request ["Sql"; "bindvalues"] (bindvalues_ self)
    else request in
  let request :=
    if negb (nullish (savepoint_ self))
    then set_path request ["Sql"; "savepoint"] (savepoint_ self)
    else request in
  request.

(** The request built by [delete()], lines 232-246. *)
Definition delete_request (self : t) (session : Session) : JsVal :=
  let request :=
    JObj [("Sql",
           JObj [("invoke", JStr "delete");
                 ("source", source_ self);
                 ("session", sessionID session)])] in
  let request :=
    if truthy (bindvalues_ self)
    then set_path request ["Sql"; "bindvalues"] (bindvalues_ self)
    else request in
  let request :=
    if negb (nullish (savepoint_ self))
    then set_path request ["Sql"; "savepoint"] (savepoint_ self)
    else request in
  request.

(** [execute()], lines 134-158. *)
Definition execute `{Transport} : M (Env t) JsVal :=
  self <- gets this ;;
  session <- deref (session_ self) ;;
  let request := execute_request self session in
  response <- invoke session request ;;
  message <- getprop response "message" ;;
  assign (set_errm message) ;;;
  success <- getprop response "success" ;;
  assign (set_success success) ;;;
  gets (fun st => success_ (this st)).

(** [insert()], lines 164-191. *)
Definition insert `{Transport} : M (Env t) JsVal :=
  self <- gets this ;;
  session <- deref (session_ self) ;;
  let request := insert_request self session in
  response <- invoke session request ;;
  message <- getprop response "message" ;;
  assign (set_errm message) ;;;
  success <- getprop response "success" ;;
  assign (set_success success) ;;;
  self <- gets this ;;
  (if truthy (success_ self)
   then (n <- getprop response "affected" ;; assign (set_affected n))
   else ret tt) ;;;
  gets (fun st => success_ (this st)).

(** [update()], lines 197-224. *)
Definition update `{Transport} : M (Env t) JsVal :=
  self <- gets this ;;
  session <- deref (session_ self) ;;
  let request := update_request self session in
  response <- invoke session request ;;
  message <- getprop response "message" ;;
  assign (set_errm message) ;;;
  success <- getprop response "success" ;;
  assign (set_success success) ;;;
  self <- gets this ;;
  (if truthy (success_ self)
   then (n <- getprop response "affected" ;; assign (set_affected n))
   else ret tt) ;;;
  gets (fun st => success_ (this st)).

(** [delete()], lines 230-257. *)
Definition delete `{Transport} : M (Env t) JsVal :=
  self <- gets this ;;
  session <- deref (session_ self) ;;
  let request := delete_request self session in
  response <- invoke session request ;;
  message <- getprop response "message" ;;
  assign (set_errm message) ;;;
  success <- getprop response "success" ;;
  assign (set_success success) ;;;
  self <- gets this ;;
  (if truthy (success_ self)
   then (n <- getprop response "affected" ;; assign (set_affected n))
   else ret tt) ;;;
  gets (fun st => success_ (this st)).

(** The request of [select(close, arrayfetch)], lines 265-293. *)
Definition select_request (self : t) (session : Session)
    (close arrayfetch : JsVal) : JsVal :=
  let close := if nullish close then JBool false else close in
  let arrayfetch := if nullish arrayfetch then JNum 1 else arrayfetch in
  let request :=
    JObj [("Sql",
           JObj [("invoke", JStr "select");
                 ("source", source_ self);
                 ("session", sessionID session);
                 ("select()", JObj [("page-size", arrayfetch)])])] in
  let request :=
    if truthy (bindvalues_ self)
    then set_path request ["Sql"; "bindvalues"] (bindvalues_ self)
    else request in
  let request :=
    if negb (nullish (savepoint_ self))
    then set_path request ["Sql"; "savepoint"] (savepoint_ self)
    else request in
  let request :=
    if truthy close
    then set_path request ["Sql"; "select()"; "cursor"] (JBool false)
    else request in
  request.

(** The callback of [response.columns.forEach], lines 308-319; the
    accumulator is the pair of the locals [cols] and [columns]. *)
Definition select_column {S : Type} (coldef : JsVal)
    (acc : list JsVal * gmap string ColumnDefinition)
  : M S (list JsVal * gmap string ColumnDefinition) :=
  let '(cols, columns) := acc in
  cname <- getprop coldef "name" ;;
  ctype <- getprop coldef "type" ;;
  csqltype <- getprop coldef "sqltype" ;;
  cprecision <- getprop coldef "precision" ;;
  let column :=
    {| name := cname; type := ctype; sqltype := csqltype;
       precision := cprecision |} in
  let cols := cols ++ [name column] in
  key <- call_toLowerCase (name column) ;;
  ret (cols, <[key := column]> columns).

(** [select(close?, arrayfetch?)], lines 263-326: [None] is [null]. *)
Definition select `{Transport} (close arrayfetch : JsVal)
  : M (Env t) (option Cursor) :=
  self <- gets this ;;
  session <- deref (session_ self) ;;
  let request := select_request self session close arrayfetch in
  response <- invoke session request ;;
  message <- getprop response "message" ;;
  assign (set_errm message) ;;;
  success <- getprop response "success" ;;
  assign (set_success success) ;;;
  if truthy success then
    coldefs <- getprop response "columns" ;;
    acc <- forEach coldefs select_column ([], ∅) ;;
    let '(cols, columns) := acc in
    let response := set_path response ["columns"] (JArr cols) in
    ret (Some {| cursor_session := session; cursor_columns := columns;
                 cursor_response := response |})
  else ret None.

End AnySQL.

(** ** Insert (jsondb/Insert.ts) *)

(** Table.ts is outside this slice.  [Insert] reads the getters [source],
    [session] and [bindvalues] of its table, calls [getColumnDefinitions()]
    and awaits [describe()]. *)
Record Table : Type :=
  { table_source : JsVal;
    table_session : option Session;
    table_bindvalues : JsVal;
    getColumnDefinitions : gmap string ColumnDefinition }.

(** [table.describe()]: it may update the table, talk to the backend, or
    reject. *)
Class Describe : Type :=
  { describe : Table -> World -> Outcome unit * (Table * World) }.

(** Record.ts is outside this slice: [Insert.execute] reads the arrays
    [record.columns] and [record.values]. *)
Record JsRecord : Type :=
  { columns : list JsVal;
    values : list JsVal }.

(** [for (let i = start; i < start + count; i++) body], on the loop's
    accumulated state. *)
Fixpoint for_loop {A : Type} (count start : nat) (body : nat -> A -> A)
    (acc : A) : A :=
  match count with
  | O => acc
  | S count' => for_loop count' (S start) body (body start acc)
  end.

Module Insert.

Record t : Type := mk
  { errm_ : JsVal;
    success_ : JsVal;
    affected_ : JsVal;
    cursor_ : option Cursor;
    table_ : Table;
    source_ : JsVal;
    session_ : option Session;
    savepoint_ : JsVal;
    returning_ : JsVal }.

Definition set_errm (v : JsVal) (a : t) : t :=
  mk v (success_ a) (affected_ a) (cursor_ a) (table_ a) (source_ a)
     (session_ a) (savepoint_ a) (returning_ a).

Definition set_success (v : JsVal) (a : t) : t :=
  mk (errm_ a) v (affected_ a) (cursor_ a) (table_ a) (source_ a)
     (session_ a) (savepoint_ a) (returning_ a).

Definition set_affected (v : JsVal) (a : t) : t :=
  mk (errm_ a) (success_ a) v (cursor_ a) (table_ a) (source_ a)
     (session_ a) (savepoint_ a) (returning_ a).

Definition set_cursor (v : option Cursor) (a : t) : t :=
  mk (errm_ a) (success_ a) (affected_ a) v (table_ a) (source_ a)
     (session_ a) (savepoint_ a) (returning_ a).

Definition set_table (v : Table) (a : t) : t :=
  mk (errm_ a) (success_ a) (affected_ a) (cursor_ a) v (source_ a)
     (session_ a) (savepoint_ a) (returning_ a).

Definition set_savepoint (v : JsVal) (a : t) : t :=
  mk (errm_ a) (success_ a) (affected_ a) (cursor_ a) (table_ a) (source_ a)
     (session_ a) v (returning_ a).

Definition set_returning (v : JsVal) (a : t) : t :=
  mk (errm_ a) (success_ a) (affected_ a) (cursor_ a) (table_ a) (source_ a)
     (session_ a) (savepoint_ a) v.

(** [constructor(table)], lines 46-51, after the initialisers of 33-43.  The
    table is an object: on null, line 49 throws a TypeError. *)
Definition constructor (table : Table) : t :=
  {| errm_ := JNull; success_ := JBool true;
     affected_ := JNum 0; cursor_ := None;
     table_ := table;
     source_ := table_source table;
     session_ := table_session table;
     savepoint_ := JNull; returning_ := JNull |}.

(** [failed()] *)
Definition failed (a : t) : bool := negb (truthy (success_ a)).

(** [getErrorMessage()] *)
Definition getErrorMessage (a : t) : JsVal := errm_ a.

(** [affected()] *)
Definition affected (a : t) : JsVal := affected_ a.

(** [getReturnValues()]: [None] is [null]. *)
Definition getReturnValues (a : t) : option Cursor := cursor_ a.

(** [setReturnColumns(columns)], lines 96-103. *)
Definition setReturnColumns (columns : JsVal) (a : t) : t :=
  let columns := if negb (isArray columns) then JArr [columns] else columns in
  set_returning columns a.

(** [useSavePoint(flag)], lines 112-116. *)
Definition useSavePoint (flag : JsVal) (a : t) : t := set_savepoint flag a.

(** The request built by [execute], lines 130-158. *)
Definition execute_request (self : t) (session : Session) (record : JsRecord)
  : JsVal :=
  let request :=
    JObj [("Table",
           JObj [("invoke", JStr "insert");
                 ("source", source_ self);
                 ("session", sessionID session);
                 ("insert()", JObj [])])] in
  let request :=
    if truthy (table_bindvalues (table_ self))
    then set_path request ["Table"; "bindvalues"]
                  (table_bindvalues (table_ self))
    else request in
  let request :=
    if negb (nullish (savepoint_ self))
    then set_path request ["Table"; "insert()"; "savepoint"] (savepoint_ self)
    else request in
  let cols :=
    for_loop (length (columns record)) 0
      (fun i cols =>
         cols ++ [JObj [("column", index (columns record) i);
                        ("value", index (values record) i)]])
      [] in
  let request := set_path request ["Table"; "insert()"; "values"] (JArr cols) in
  let request :=
    if truthy (returning_ self)
    then set_path request ["Table"; "insert()"; "returning"] (returning_ self)
    else request in
  request.

(** [await this.table$.describe()] *)
Definition await_describe `{Describe} : M (Env t) unit :=
  fun st =>
    let '(outcome, (table, w)) := describe (table_ (this st)) (world st) in
    (outcome, {| this := set_table table (this st); world := w |}).

(** [execute(record)], lines 123-181. *)
Definition execute `{Transport} `{Describe} (record : JsRecord)
  : M (Env t) JsVal :=
  assign (set_affected (JNum 0)) ;;;
  assign (set_cursor None) ;;;
  await_describe ;;;
  self <- gets this ;;
  session <- deref (session_ self) ;;
  let request := execute_request self session record in
  response <- invoke session request ;;
  message <- getprop response "message" ;;
  assign (set_errm message) ;;;
  success <- getprop response "success" ;;
  assign (set_success success) ;;;
  self <- gets this ;;
  (if truthy (success_ self)
   then (n <- getprop response "affected" ;; assign (set_affected n))
   else ret tt) ;;;
  self <- gets this ;;
  (if truthy (success_ self) && truthy (returning_ self)
   then
     rows <- getprop response "rows" ;;
     let curs :=
       JObj [("more", JBool false);
             ("rows", rows);
             ("columns", returning_ self)] in
     assign (set_cursor
               (Some {| cursor_session := session;
                        cursor_columns := getColumnDefinitions (table_ self);
                        cursor_response := curs |}))
   else ret tt) ;;;
  gets (fun st => success_ (this st)).

End Insert.

(** ** Operation kinds, for statements that range over the methods *)

(** The four mutating methods of AnySQL. *)
Inductive Verb : Type := VExecute | VInsert | VUpdate | VDelete.

Definition verb_name (v : Verb) : string :=
  match v with
  | VExecute => "execute"
  | VInsert => "insert"
  | VUpdate => "update"
  | VDelete => "delete"
  end.

Definition run_mutating `{Transport} (v : Verb) : M (Env AnySQL.t) JsVal :=
  match v with
  | VExecute => AnySQL.execute
  | VInsert => AnySQL.insert
  | VUpdate => AnySQL.update
  | VDelete => AnySQL.delete
  end.

Definition verb_request (v : Verb) (self : AnySQL.t) (session : Session)
  : JsVal :=
  match v with
  | VExecute => AnySQL.execute_request self session
  | VInsert => AnySQL.insert_request self session
  | VUpdate => AnySQL.update_request self session
  | VDelete => AnySQL.delete_request self session
  end.

(** Whether the method has the statement
    [if (this.success$) this.affected$ = response.affected]. *)
Definition copies_affected (v : Verb) : bool :=
  match v with
  | VExecute => false
  | VInsert | VUpdate | VDelete => true
  end.

(** All five methods of AnySQL that talk to the backend. *)
Inductive Op : Type :=
| Mutate (v : Verb)
| Select (close arrayfetch : JsVal).

Definition op_request (op : Op) (self : AnySQL.t) (session : Session) : JsVal :=
  match op with
  | Mutate v => verb_request v self session
  | Select close arrayfetch => AnySQL.select_request self session close arrayfetch
  end.

(** What a call gave back: the boolean of a mutating method or the cursor
    (or null) of [select]. *)
Inductive Result : Type :=
| Flag (v : JsVal)
| Cursor_or_null (c : option Cursor).

Definition run_op `{Transport} (op : Op) : M (Env AnySQL.t) Result :=
  match op with
  | Mutate v => r <- run_mutating v ;; ret (Flag r)
  | Select close arrayfetch =>
      c <- AnySQL.select close arrayfetch ;; ret (Cursor_or_null c)
  end.

Definition op_copies_affected (op : Op) : bool :=
  match op with
  | Mutate v => copies_affected v
  | Select _ _ => false
  end.

Definition returned {A : Type} (o : Outcome A) : bool :=
  match o with
  | Return _ => true
  | Throw _ => false
  end.

(** The call gave back a truthy value. *)
Definition returned_truthy (o : Outcome JsVal) : bool :=
  match o with
  | Return v => truthy v
  | Throw _ => false
  end.

(** ** Test doubles *)

(** A session that answers every request with [r]. *)
Definition mock (r : JsVal) : Transport :=
  {| respond := fun _ _ _ => Return r |}.

(** A session that answers its k-th request with the k-th response of the
    script, and rejects once the script is used up. *)
Definition scripted (script : list JsVal) : Transport :=
  {| respond := fun _ seen _ =>
       match script !! length seen with
       | Some r => Return r
       | None => Throw TypeError
       end |}.

(** A table that is already described. *)
Definition described : Describe :=
  {| describe := fun table w => (Return tt, (table, w)) |}.

Definition plain_messages : Messages :=
  {| Messages_get := fun code who => JStr (code ++ ": " ++ who) |}.

Definition session0 : Session := {| sessionID := JStr "s1" |}.
Definition world0 : World := {| sent := [] |}.

Definition anysql0 : AnySQL.t :=
  AnySQL.mk JNull (JNum 0) (JBool true) (JStr "update emp set sal = sal * 2")
            (Some session0) JNull JNull.

Definition table0 : Table :=
  {| table_source := JStr "emp";
     table_session := Some session0;
     table_bindvalues := JNull;
     getColumnDefinitions := ∅ |}.

Definition record0 : JsRecord :=
  {| columns := [JStr "id"; JStr "name"];
     values := [JNum 7; JStr "Ann"] |}.

Definition ok_response (n : Z) : JsVal :=
  JObj [("success", JBool true); ("affected", JNum n)].

Definition declined (msg : string) : JsVal :=
  JObj [("success", JBool false); ("message", JStr msg)].

Definition insert0 : Insert.t :=
  Insert.setReturnColumns (JStr "id") (Insert.constructor table0).

Definition inserted (n : Z) : JsVal :=
  JObj [("success", JBool true); ("affected", JNum n);
        ("rows", JArr [JArr [JNum 7]])].

(** ** The states the methods leave, and the data they build *)

(** The state in which a mutating method leaves the instance after the
    response [r]. *)
Definition after_mutating (v : Verb) (r : JsVal) (a : AnySQL.t) : AnySQL.t :=
  let a := AnySQL.set_success (prop r "success")
             (AnySQL.set_errm (prop r "message") a) in
  if copies_affected v && truthy (prop r "success")
  then AnySQL.set_affected (prop r "affected") a
  else a.

(** The state after [select]: it never writes [affected$]. *)
Definition after_select (r : JsVal) (a : AnySQL.t) : AnySQL.t :=
  AnySQL.set_success (prop r "success") (AnySQL.set_errm (prop r "message") a).

Definition after_op (op : Op) (r : JsVal) (a : AnySQL.t) : AnySQL.t :=
  match op with
  | Mutate v => after_mutating v r a
  | Select _ _ => after_select r a
  end.

(** The ColumnDefinition that the callback of [select] fills from a
    descriptor. *)
Definition coldef_of (d : JsVal) : ColumnDefinition :=
  {| name := prop d "name"; type := prop d "type";
     sqltype := prop d "sqltype"; precision := prop d "precision" |}.

(** The key under which it is stored. *)
Definition column_key (d : JsVal) : string :=
  match prop d "name" with
  | JStr s => toLowerCase s
  | _ => ""
  end.

Definition column_map (ds : list JsVal) (init : gmap string ColumnDefinition)
  : gmap string ColumnDefinition :=
  fold_left (fun m d => <[column_key d := coldef_of d]> m) ds init.

(** A column descriptor as the backend sends it: an object with a name. *)
Definition descriptor_ok (d : JsVal) : bool :=
  match prop d "name" with
  | JStr _ => true
  | _ => false
  end.

(** A response to [select] as section 3 of the specification describes it:
    [success] is a boolean and, on success, [columns] is a sequence of column
    descriptors. *)
Definition select_response_ok (r : JsVal) : bool :=
  match prop r "success" with
  | JBool true =>
      match prop r "columns" with
      | JArr ds => forallb descriptor_ok ds
      | _ => false
      end
  | JBool false => true
  | _ => false
  end.

(** The cursor that [execute] builds from the response [r]. *)
Definition returned_cursor (s : Session) (tb : Table) (returning r : JsVal)
  : Cursor :=
  {| cursor_session := s;
     cursor_columns := getColumnDefinitions tb;
     cursor_response :=
       JObj [("more", JBool false);
             ("rows", prop r "rows");
             ("columns", returning)] |}.

(** The state in which [execute] leaves the instance, when [describe] gave
    the table [tb] and the backend answered [r]. *)
Definition after_insert (s : Session) (tb : Table) (r : JsVal) (i : Insert.t)
  : Insert.t :=
  Insert.mk
    (prop r "message")
    (prop r "success")
    (if truthy (prop r "success") then prop r "affected" else JNum 0)
    (if truthy (prop r "success") && truthy (Insert.returning_ i)
     then Some (returned_cursor s tb (Insert.returning_ i) r)
     else None)
    tb (Insert.source_ i) (Insert.session_ i) (Insert.savepoint_ i)
    (Insert.returning_ i).

(** The column/value pair that [execute] pushes in iteration [i]. *)
Definition value_pair (record : JsRecord) (i : nat) : JsVal :=
  JObj [("column", index (columns record) i);
        ("value", index (values record) i)].

Definition op_name (op : Op) : string :=
  match op with
  | Mutate v => verb_name v
  | Select _ _ => "select"
  end.

(** A member that a request gets only under a condition. *)
Definition optional_member (present : bool) (k : string) (v : JsVal)
  : list (string * JsVal) :=
  if present then [(k, v)] else [].

(** [if (!Array.isArray(v)) v = [v]], as in the constructor of AnySQL and in
    [Insert.setReturnColumns]. *)
Definition as_array (v : JsVal) : JsVal :=
  if isArray v then v else JArr [v].

(** The members that [select] adds to the envelope. *)
Definition select_members (op : Op) : list (string * JsVal) :=
  match op with
  | Mutate _ => []
  | Select close arrayfetch =>
      [("select()",
        JObj (("page-size", if nullish arrayfetch then JNum 1 else arrayfetch)
              :: optional_member (truthy close) "cursor" (JBool false)))]
  end.

(** On a success response, what [select] needs of [response.columns]: an
    array of descriptors that have a name. *)
Definition columns_ok (r : JsVal) : bool :=
  match prop r "columns" with
  | JArr ds => forallb descriptor_ok ds
  | _ => false
  end.

(** A string of ASCII characters: on these [toLowerCase] is JavaScript's. *)
Definition is_ascii (c : ascii) : bool := (nat_of_ascii c <? 128)%nat.

Fixpoint ascii_string (x : string) : bool :=
  match x with
  | EmptyString => true
  | String c rest => is_ascii c && ascii_string rest
  end.

(** A column descriptor whose name is a string of ASCII characters. *)
Definition ascii_named (d : JsVal) : bool :=
  match prop d "name" with
  | JStr x => ascii_string x
  | _ => false
  end.

(** A caller that makes the calls [ops] one after the other on the same
    instance, going on after a call that threw. *)
Definition run_ops `{Transport} (ops : list Op) (st : Env AnySQL.t)
  : Env AnySQL.t :=
  fold_left (fun st op => snd (run_op op st)) ops st.

(** What a method gives back for a response whose [success] is falsy. *)
Definition declined_result (op : Op) (r : JsVal) : Result :=
  match op with
  | Mutate _ => Flag (prop r "success")
  | Select _ _ => Cursor_or_null None
  end.

(** ** Running the methods of AnySQL *)

Ltac unfold_steps :=
  unfold bind, ret, gets, assign, modify, throw, deref, getprop, invoke.

Section AnySQL_runs.
Context `{Transport}.

Lemma run_mutating_returns (v : Verb) (a : AnySQL.t) (s : Session) (w : World)
    (r : JsVal) :
  AnySQL.session_ a = Some s ->
  respond s (sent w) (verb_request v a s) = Return r ->
  nullish r = false ->
  run_mutating v (Build_Env a w) =
    (Return (prop r "success"),
     Build_Env (after_mutating v r a)
       {| sent := sent w ++ [verb_request v a s] |}).
Proof.
  intros Hs Hr Hn.
  destruct v; unfold run_mutating, AnySQL.execute, AnySQL.insert,
    AnySQL.update, AnySQL.delete, after_mutating, verb_request in *;
    unfold_steps; cbn;
    rewrite Hs; cbn in *; rewrite Hr, Hn; cbn;
    try (destruct (truthy (prop r "success")); cbn; rewrite ?Hn);
    reflexivity.
Qed.

(** The callback of [select] leaves the instance and the world alone. *)
Lemma select_column_state {S : Type} (d : JsVal)
    (acc : list JsVal * gmap string ColumnDefinition) (st : S) :
  snd (AnySQL.select_column d acc st) = st.
Proof.
  destruct acc as [cols columns].
  unfold AnySQL.select_column; unfold_steps.
  destruct (nullish d); cbn; [reflexivity|].
  destruct (prop d "name"); reflexivity.
Qed.

Lemma forEach_select_column_state {S : Type} (ds : list JsVal)
    (acc : list JsVal * gmap string ColumnDefinition) (st : S) :
  snd (forEach_items ds AnySQL.select_column acc st) = st.
Proof.
  revert acc; induction ds as [|d ds IH]; intros acc; cbn; [reflexivity|].
  unfold bind.
  pose proof (select_column_state d acc st) as Hd.
  destruct (AnySQL.select_column d acc st) as [[acc'|e] st']; cbn in Hd; subst st'.
  - apply IH.
  - reflexivity.
Qed.

(** Whatever [select] gives back, it leaves the instance as [after_select]
    says, and it has sent its one request. *)
Lemma select_state (close arrayfetch : JsVal) (a : AnySQL.t) (s : Session)
    (w : World) (r : JsVal) :
  AnySQL.session_ a = Some s ->
  respond s (sent w) (AnySQL.select_request a s close arrayfetch) = Return r ->
  nullish r = false ->
  snd (AnySQL.select close arrayfetch (Build_Env a w)) =
    Build_Env (after_select r a)
      {| sent := sent w ++ [AnySQL.select_request a s close arrayfetch] |}.
Proof.
  intros Hs Hr Hn.
  unfold AnySQL.select, after_select; unfold_steps; cbn.
  rewrite Hs; cbn in *; rewrite Hr, Hn; cbn.
  destruct (truthy (prop r "success")); cbn; [|reflexivity].
  unfold forEach.
  destruct (prop r "columns") as [| | | | |ds|]; try reflexivity.
  match goal with
  | |- context [forEach_items ds AnySQL.select_column ?acc ?st] =>
      pose proof (forEach_select_column_state ds acc st) as Hst;
      destruct (forEach_items ds AnySQL.select_column acc st) as [[[cols columns]|e] st']
  end; cbn in Hst; subst; reflexivity.
Qed.

Lemma run_op_state (op : Op) (a : AnySQL.t) (s : Session) (w : World)
    (r : JsVal) :
  AnySQL.session_ a = Some s ->
  respond s (sent w) (op_request op a s) = Return r ->
  nullish r = false ->
  snd (run_op op (Build_Env a w)) =
    Build_Env (after_op op r a) {| sent := sent w ++ [op_request op a s] |}.
Proof.
  intros Hs Hr Hn. destruct op as [v|close arrayfetch]; cbn in *.
  - unfold bind. rewrite (run_mutating_returns v a s w r Hs Hr Hn). reflexivity.
  - pose proof (select_state close arrayfetch a s w r Hs Hr Hn) as Hst.
    unfold bind.
    destruct (AnySQL.select close arrayfetch (Build_Env a w)) as [[c|e] st'];
      cbn in *; subst; reflexivity.
Qed.

End AnySQL_runs.

(** ** What [select] hands to the Cursor *)

Lemma prop_defined_not_nullish (o : JsVal) (k : string) :
  prop o k <> JUndefined -> nullish o = false.
Proof. destruct o; cbn; congruence. Qed.

Lemma assoc_setf_eq (k : string) (v : JsVal) (fs : list (string * JsVal)) :
  assoc k (setf k v fs) = v.
Proof.
  induction fs as [|[k' v'] fs IH]; cbn.
  - rewrite String.eqb_refl. reflexivity.
  - destruct (String.eqb k k') eqn:Hk; cbn; rewrite ?String.eqb_refl, ?Hk;
      [reflexivity|exact IH].
Qed.

(** [o.k = v; o.k] on an object. *)
Lemma prop_set_path_eq (o : JsVal) (k k' : string) (v : JsVal) :
  prop o k' <> JUndefined ->
  prop (set_path o [k] v) k = v.
Proof.
  destruct o; cbn; try congruence. intros _. apply assoc_setf_eq.
Qed.

Lemma descriptor_ok_not_nullish (d : JsVal) :
  descriptor_ok d = true -> nullish d = false.
Proof.
  unfold descriptor_ok. intros Hd. apply (prop_defined_not_nullish d "name").
  destruct (prop d "name"); congruence.
Qed.

Lemma select_response_ok_not_nullish (r : JsVal) :
  select_response_ok r = true -> nullish r = false.
Proof.
  unfold select_response_ok. intros Hr.
  apply (prop_defined_not_nullish r "success").
  destruct (prop r "success"); congruence.
Qed.

Lemma select_column_ok {S : Type} (d : JsVal) (cols : list JsVal)
    (columns : gmap string ColumnDefinition) (st : S) :
  descriptor_ok d = true ->
  AnySQL.select_column d (cols, columns) st =
    (Return (cols ++ [prop d "name"], <[column_key d := coldef_of d]> columns),
     st).
Proof.
  intros Hd. pose proof (descriptor_ok_not_nullish d Hd) as Hn.
  unfold AnySQL.select_column, column_key, coldef_of; unfold_steps.
  rewrite Hn; cbn. unfold descriptor_ok in Hd.
  destruct (prop d "name"); try discriminate. reflexivity.
Qed.

Lemma forEach_select_column_ok {S : Type} (ds : list JsVal)
    (cols : list JsVal) (columns : gmap string ColumnDefinition) (st : S) :
  forallb descriptor_ok ds = true ->
  forEach_items ds AnySQL.select_column (cols, columns) st =
    (Return (cols ++ map (fun d => prop d "name") ds, column_map ds columns),
     st).
Proof.
  revert cols columns; induction ds as [|d ds IH]; intros cols columns Hds.
  - cbn. rewrite app_nil_r. reflexivity.
  - cbn in Hds. apply andb_prop in Hds as [Hd Hds].
    cbn [forEach_items]. unfold bind at 1.
    rewrite (select_column_ok d cols columns st Hd).
    rewrite (IH _ _ Hds). cbn. rewrite <- app_assoc. reflexivity.
Qed.

Section AnySQL_select.
Context `{Transport}.

(** On a success response with well-formed columns, [select] gives back the
    cursor built from the lower-cased column map and from the response whose
    [columns] is replaced by the list of names. *)
Lemma select_returns_cursor (close arrayfetch : JsVal) (a : AnySQL.t)
    (s : Session) (w : World) (r : JsVal) (ds : list JsVal) :
  AnySQL.session_ a = Some s ->
  respond s (sent w) (AnySQL.select_request a s close arrayfetch) = Return r ->
  truthy (prop r "success") = true ->
  prop r "columns" = JArr ds ->
  forallb descriptor_ok ds = true ->
  fst (AnySQL.select close arrayfetch (Build_Env a w)) =
    Return (Some {| cursor_session := s;
                    cursor_columns := column_map ds ∅;
                    cursor_response :=
                      set_path r ["columns"]
                        (JArr (map (fun d => prop d "name") ds)) |}).
Proof.
  intros Hs Hr Ht Hc Hds.
  assert (Hn : nullish r = false).
  { apply (prop_defined_not_nullish r "columns"). congruence. }
  unfold AnySQL.select; unfold_steps; cbn.
  rewrite Hs; cbn in *; rewrite Hr, Hn; cbn. rewrite Ht, Hc; cbn.
  rewrite forEach_select_column_ok by assumption. reflexivity.
Qed.

(** On a response whose [success] is falsy, [select] gives back null. *)
Lemma select_returns_null (close arrayfetch : JsVal) (a : AnySQL.t)
    (s : Session) (w : World) (r : JsVal) :
  AnySQL.session_ a = Some s ->
  respond s (sent w) (AnySQL.select_request a s close arrayfetch) = Return r ->
  nullish r = false ->
  truthy (prop r "success") = false ->
  fst (AnySQL.select close arrayfetch (Build_Env a w)) = Return None.
Proof.
  intros Hs Hr Hn Ht.
  unfold AnySQL.select; unfold_steps; cbn.
  rewrite Hs; cbn in *; rewrite Hr, Hn; cbn. rewrite Ht. reflexivity.
Qed.

End AnySQL_select.

(** ** Running [Insert.execute] *)

Lemma execute_request_reset (tb : Table) (c : option Cursor) (n : JsVal)
    (i : Insert.t) (s : Session) (record : JsRecord) :
  Insert.execute_request
    (Insert.set_table tb (Insert.set_cursor c (Insert.set_affected n i)))
    s record =
  Insert.execute_request (Insert.set_table tb i) s record.
Proof. reflexivity. Qed.

Section Insert_runs.
Context `{Transport} `{Describe}.

Lemma insert_execute_returns (record : JsRecord) (i : Insert.t) (s : Session)
    (w w1 : World) (tb : Table) (r : JsVal) :
  describe (Insert.table_ i) w = (Return tt, (tb, w1)) ->
  Insert.session_ i = Some s ->
  respond s (sent w1) (Insert.execute_request (Insert.set_table tb i) s record)
    = Return r ->
  nullish r = false ->
  Insert.execute record (Build_Env i w) =
    (Return (prop r "success"),
     Build_Env (after_insert s tb r i)
       {| sent := sent w1 ++
                  [Insert.execute_request (Insert.set_table tb i) s record] |}).
Proof.
  intros Hd Hs Hr Hn.
  unfold Insert.execute, Insert.await_describe, after_insert, returned_cursor;
    unfold_steps; cbn.
  rewrite Hd; cbn. rewrite Hs; cbn.
  rewrite execute_request_reset, Hr, Hn; cbn.
  destruct (truthy (prop r "success")) eqn:Ht; cbn; rewrite ?Hn, ?Ht; cbn;
    [destruct (truthy (Insert.returning_ i)); cbn; rewrite ?Hn|];
    unfold Insert.set_cursor, Insert.set_affected, Insert.set_success,
      Insert.set_errm, Insert.set_table; cbn; rewrite ?Hs; reflexivity.
Qed.

(** Unless [execute] gives back a truthy value, it leaves the affected count
    at 0 and the cursor at null: both are reset on entry (lines 125-126) and
    only written again after a success. *)
Lemma insert_execute_resets (record : JsRecord) (st : Env Insert.t) :
  returned_truthy (fst (Insert.execute record st)) = false ->
  Insert.affected_ (this (snd (Insert.execute record st))) = JNum 0 /\
  Insert.cursor_ (this (snd (Insert.execute record st))) = None.
Proof.
  destruct st as [i w].
  unfold Insert.execute, Insert.await_describe; unfold_steps; cbn.
  destruct (describe (Insert.table_ i) w) as [[[]|e] [tb w1]]; cbn;
    [|intros _; split; reflexivity].
  destruct (Insert.session_ i) as [s|]; cbn; [|intros _; split; reflexivity].
  destruct (respond s (sent w1) _) as [r|e]; cbn;
    [|intros _; split; reflexivity].
  destruct (nullish r) eqn:Hn; cbn; [intros _; split; reflexivity|].
  destruct (truthy (prop r "success")) eqn:Ht; cbn; rewrite ?Ht; cbn;
    [|intros _; split; reflexivity].
  destruct (truthy (Insert.returning_ i)); cbn; rewrite ?Hn, ?Ht; cbn;
    rewrite ?Ht; discriminate.
Qed.


End Insert_runs.

(** ** The shape of the requests *)

Lemma for_loop_collect {A : Type} (f : nat -> A) (count start : nat)
    (acc : list A) :
  for_loop count start (fun i cols => cols ++ [f i]) acc =
    acc ++ map f (seq start count).
Proof.
  revert start acc; induction count as [|count IH]; intros start acc; cbn.
  - rewrite app_nil_r. reflexivity.
  - rewrite IH, <- app_assoc. reflexivity.
Qed.

Lemma insert_request_values (i : Insert.t) (s : Session) (record : JsRecord) :
  prop (prop (prop (Insert.execute_request i s record) "Table") "insert()")
       "values" =
    JArr (map (value_pair record) (seq 0 (length (columns record)))).
Proof.
  unfold Insert.execute_request.
  rewrite (for_loop_collect (value_pair record)).
  destruct (truthy (table_bindvalues (Insert.table_ i)));
    destruct (nullish (Insert.savepoint_ i));
    destruct (truthy (Insert.returning_ i)); reflexivity.
Qed.

(** In the request of [Insert.execute] the savepoint flag is a member of the
    ["insert()"] object, and the envelope has no such member. *)
Lemma insert_request_savepoint (i : Insert.t) (s : Session)
    (record : JsRecord) :
  let envelope := prop (Insert.execute_request i s record) "Table" in
  has_prop envelope "savepoint" = false /\
  prop (prop envelope "insert()") "savepoint" =
    (if nullish (Insert.savepoint_ i) then JUndefined
     else Insert.savepoint_ i).
Proof.
  unfold Insert.execute_request.
  destruct (truthy (table_bindvalues (Insert.table_ i)));
    destruct (nullish (Insert.savepoint_ i));
    destruct (truthy (Insert.returning_ i)); split; reflexivity.
Qed.

Lemma insert_request_envelope (i : Insert.t) (s : Session)
    (record : JsRecord) :
  let envelope := prop (Insert.execute_request i s record) "Table" in
  prop envelope "invoke" = JStr "insert" /\
  prop envelope "source" = Insert.source_ i /\
  prop envelope "session" = sessionID s /\
  prop envelope "bindvalues" =
    (if truthy (table_bindvalues (Insert.table_ i))
     then table_bindvalues (Insert.table_ i) else JUndefined).
Proof.
  unfold Insert.execute_request.
  destruct (truthy (table_bindvalues (Insert.table_ i)));
    destruct (nullish (Insert.savepoint_ i));
    destruct (truthy (Insert.returning_ i)); repeat split; reflexivity.
Qed.

(** In the requests of AnySQL the savepoint flag is a member of the envelope;
    the ["select()"] object of a select request has no such member. *)
Lemma anysql_request_savepoint (op : Op) (a : AnySQL.t) (s : Session) :
  let envelope := prop (op_request op a s) "Sql" in
  prop envelope "savepoint" =
    (if nullish (AnySQL.savepoint_ a) then JUndefined
     else AnySQL.savepoint_ a) /\
  has_prop (prop envelope "select()") "savepoint" = false.
Proof.
  destruct op as [v|close arrayfetch]; cbn.
  - destruct v; unfold verb_request, AnySQL.execute_request,
      AnySQL.insert_request, AnySQL.update_request, AnySQL.delete_request;
      destruct (truthy (AnySQL.bindvalues_ a));
      destruct (nullish (AnySQL.savepoint_ a)); split; reflexivity.
  - unfold AnySQL.select_request.
    destruct (truthy (AnySQL.bindvalues_ a));
      destruct (nullish (AnySQL.savepoint_ a));
      destruct (truthy (if nullish close then JBool false else close));
      split; reflexivity.
Qed.

Lemma anysql_request_envelope (op : Op) (a : AnySQL.t) (s : Session) :
  let envelope := prop (op_request op a s) "Sql" in
  prop envelope "invoke" = JStr (op_name op) /\
  prop envelope "source" = AnySQL.source_ a /\
  prop envelope "session" = sessionID s /\
  prop envelope "bindvalues" =
    (if truthy (AnySQL.bindvalues_ a) then AnySQL.bindvalues_ a
     else JUndefined).
Proof.
  destruct op as [v|close arrayfetch]; cbn.
  - destruct v; unfold verb_request, AnySQL.execute_request,
      AnySQL.insert_request, AnySQL.update_request, AnySQL.delete_request;
      destruct (truthy (AnySQL.bindvalues_ a));
      destruct (nullish (AnySQL.savepoint_ a)); repeat split; reflexivity.
  - unfold AnySQL.select_request.
    destruct (truthy (AnySQL.bindvalues_ a));
      destruct (nullish (AnySQL.savepoint_ a));
      destruct (truthy (if nullish close then JBool false else close));
      repeat split; reflexivity.
Qed.

Section Requests_sent.
Context `{Transport}.

(** Every method of AnySQL hands exactly one request to [invoke]: the one it
    has built. *)
Lemma run_op_sends (op : Op) (a : AnySQL.t) (s : Session) (w : World) :
  AnySQL.session_ a = Some s ->
  sent (world (snd (run_op op (Build_Env a w)))) =
    sent w ++ [op_request op a s].
Proof.
  intros Hs.
  destruct (respond s (sent w) (op_request op a s)) as [r|e] eqn:Hr.
  - destruct (nullish r) eqn:Hn.
    + destruct op as [[]|close arrayfetch]; cbn in *;
        unfold AnySQL.execute, AnySQL.insert, AnySQL.update, AnySQL.delete,
          AnySQL.select; unfold_steps; cbn; rewrite Hs; cbn;
        rewrite Hr, Hn; reflexivity.
    + rewrite (run_op_state op a s w r Hs Hr Hn). reflexivity.
  - destruct op as [[]|close arrayfetch]; cbn in *;
      unfold AnySQL.execute, AnySQL.insert, AnySQL.update, AnySQL.delete,
        AnySQL.select; unfold_steps; cbn; rewrite Hs; cbn;
      rewrite Hr; reflexivity.
Qed.

End Requests_sent.

(** ** What the methods never touch *)

Section Configuration.
Context `{Transport} `{Describe}.

(** No method of AnySQL changes the session of its instance. *)
Lemma run_op_session (op : Op) (st : Env AnySQL.t) :
  AnySQL.session_ (this (snd (run_op op st))) = AnySQL.session_ (this st).
Proof.
  destruct st as [a w]; cbn [this].
  destruct (AnySQL.session_ a) as [s|] eqn:Hs.
  - destruct (respond s (sent w) (op_request op a s)) as [r|e] eqn:Hr;
      [destruct (nullish r) eqn:Hn|].
    + destruct op as [[]|close arrayfetch]; cbn in *;
        unfold AnySQL.execute, AnySQL.insert, AnySQL.update, AnySQL.delete,
          AnySQL.select; unfold_steps; cbn; rewrite Hs; cbn;
        rewrite Hr, Hn; cbn; assumption.
    + rewrite (run_op_state op a s w r Hs Hr Hn); cbn.
      destruct op as [v|close arrayfetch]; cbn; unfold after_mutating;
        try destruct (copies_affected v && truthy (prop r "success"));
        assumption.
    + destruct op as [[]|close arrayfetch]; cbn in *;
        unfold AnySQL.execute, AnySQL.insert, AnySQL.update, AnySQL.delete,
          AnySQL.select; unfold_steps; cbn; rewrite Hs; cbn;
        rewrite Hr; cbn; assumption.
  - destruct op as [[]|close arrayfetch]; cbn in *;
      unfold AnySQL.execute, AnySQL.insert, AnySQL.update, AnySQL.delete,
        AnySQL.select; unfold_steps; cbn; rewrite Hs; cbn; assumption.
Qed.

(** [Insert.execute] changes neither the session, nor the savepoint flag,
    nor the return columns of its instance. *)
Lemma insert_execute_configuration (record : JsRecord) (st : Env Insert.t) :
  let i' := this (snd (Insert.execute record st)) in
  Insert.session_ i' = Insert.session_ (this st) /\
  Insert.savepoint_ i' = Insert.savepoint_ (this st) /\
  Insert.returning_ i' = Insert.returning_ (this st).
Proof.
  destruct st as [i w]; cbn [this].
  unfold Insert.execute, Insert.await_describe; unfold_steps; cbn.
  destruct (describe (Insert.table_ i) w) as [[[]|e] [tb w1]]; cbn;
    [|repeat split].
  destruct (Insert.session_ i) as [s|] eqn:Hs; cbn; [|repeat split; assumption].
  destruct (respond s (sent w1) _) as [r|e]; cbn;
    [|repeat split; assumption].
  destruct (nullish r) eqn:Hn; cbn; [repeat split; assumption|].
  destruct (truthy (prop r "success")) eqn:Ht; cbn; rewrite ?Ht, ?Hn; cbn;
    [destruct (truthy (Insert.returning_ i)); cbn; rewrite ?Hn; cbn|];
    repeat split; assumption.
Qed.

(** Once [describe] has resolved and the session is there, [Insert.execute]
    hands exactly one request to [invoke]: the one it has built. *)
Lemma insert_execute_sends (record : JsRecord) (i : Insert.t) (s : Session)
    (w w1 : World) (tb : Table) :
  describe (Insert.table_ i) w = (Return tt, (tb, w1)) ->
  Insert.session_ i = Some s ->
  sent (world (snd (Insert.execute record (Build_Env i w)))) =
    sent w1 ++ [Insert.execute_request (Insert.set_table tb i) s record].
Proof.
  intros Hd Hs.
  destruct (respond s (sent w1)
              (Insert.execute_request (Insert.set_table tb i) s record))
    as [r|e] eqn:Hr; [destruct (nullish r) eqn:Hn|].
  - unfold Insert.execute, Insert.await_describe; unfold_steps; cbn.
    rewrite Hd; cbn. rewrite Hs; cbn.
    rewrite execute_request_reset, Hr, Hn. reflexivity.
  - rewrite (insert_execute_returns record i s w w1 tb r Hd Hs Hr Hn).
    reflexivity.
  - unfold Insert.execute, Insert.await_describe; unfold_steps; cbn.
    rewrite Hd; cbn. rewrite Hs; cbn.
    rewrite execute_request_reset, Hr. reflexivity.
Qed.

End Configuration.

(** * The claims *)

(** ** C1: what the four mutating methods copy from the response *)

(** C1, as the specification words it, does not hold: [execute] has no
    statement that writes [affected$], so after a response that reports 7
    affected rows (and success) [affected()] still gives the initial 0. *)
Lemma C1_execute_keeps_affected :
  let r := ok_response 7 in
  let st := snd (@AnySQL.execute (mock r) (Build_Env anysql0 world0)) in
  prop r "affected" = JNum 7 /\
  AnySQL.affected (this st) = JNum 0 /\
  AnySQL.affected (this st) <> prop r "affected".
Proof. cbn. repeat split; [discriminate]. Qed.

(** C1 (amended): each of execute, insert, update and delete, once [invoke]
    has resolved to a response r, copies r.message into the error message and
    r.success into the success state, and gives back r.success.  insert,
    update and delete copy r.affected into the affected count when r.success
    is truthy; otherwise, and always in execute, the affected count keeps its
    earlier value. *)
Theorem C1_mutating_methods_copy `{Transport} (v : Verb) (a : AnySQL.t)
    (s : Session) (w : World) (r : JsVal) :
  AnySQL.session_ a = Some s ->
  respond s (sent w) (verb_request v a s) = Return r ->
  nullish r = false ->
  let res := run_mutating v (Build_Env a w) in
  fst res = Return (prop r "success") /\
  AnySQL.getErrorMessage (this (snd res)) = prop r "message" /\
  AnySQL.success_ (this (snd res)) = prop r "success" /\
  AnySQL.affected (this (snd res)) =
    (if copies_affected v && truthy (prop r "success")
     then prop r "affected"
     else AnySQL.affected a).
Proof.
  intros Hs Hr Hn res. subst res.
  rewrite (run_mutating_returns v a s w r Hs Hr Hn); cbn.
  unfold after_mutating.
  destruct (copies_affected v && truthy (prop r "success"));
    repeat split; reflexivity.
Qed.

Lemma C1_mutating_methods_copy_witness :
  let res := @run_mutating (mock (ok_response 7)) VUpdate
               (Build_Env anysql0 world0) in
  fst res = Return (JBool true) /\
  AnySQL.getErrorMessage (this (snd res)) = JUndefined /\
  AnySQL.success_ (this (snd res)) = JBool true /\
  AnySQL.affected (this (snd res)) = JNum 7.
Proof.
  exact (@C1_mutating_methods_copy (mock (ok_response 7)) VUpdate anysql0
           session0 world0 (ok_response 7) eq_refl eq_refl eq_refl).
Defined.

(** ** C2: a second call and the state left by the first *)

(** C2, as the specification words it, does not hold for AnySQL: an insert
    that affected 5 rows followed by an insert that the backend declines
    leaves [affected()] at 5, the count of the first call. *)
Lemma C2_stale_affected_after_declined_insert :
  let transport := scripted [ok_response 5; declined "X"] in
  let st1 := snd (@AnySQL.insert transport (Build_Env anysql0 world0)) in
  let st2 := snd (@AnySQL.insert transport st1) in
  AnySQL.affected (this st1) = JNum 5 /\
  AnySQL.failed (this st2) = true /\
  AnySQL.getErrorMessage (this st2) = JStr "X" /\
  prop (declined "X") "affected" = JUndefined /\
  AnySQL.affected (this st2) = JNum 5.
Proof. cbn. repeat split. Qed.

(** C2 (amended): of two consecutive calls, the second overwrites the state
    left by the first as follows.  On an Insert, success, error message,
    affected count and cursor after the second call are those of the second
    response alone (the count is 0 and the cursor null unless it succeeded).
    On an AnySQL, success and error message are those of the second
    response; the affected count is overwritten when the second call is an
    insert, update or delete that succeeds, and otherwise keeps the value
    left by the first call. *)
Theorem C2_second_call_overwrites `{Transport} `{Describe} :
  (forall (op1 op2 : Op) (a : AnySQL.t) (s : Session) (w : World) (r2 : JsVal),
      AnySQL.session_ a = Some s ->
      let st1 := snd (run_op op1 (Build_Env a w)) in
      respond s (sent (world st1)) (op_request op2 (this st1) s) = Return r2 ->
      nullish r2 = false ->
      let st2 := snd (run_op op2 st1) in
      AnySQL.success_ (this st2) = prop r2 "success" /\
      AnySQL.getErrorMessage (this st2) = prop r2 "message" /\
      AnySQL.affected (this st2) =
        (if op_copies_affected op2 && truthy (prop r2 "success")
         then prop r2 "affected"
         else AnySQL.affected (this st1))) /\
  (forall (record1 record2 : JsRecord) (i : Insert.t) (s : Session)
          (w w2 : World) (tb : Table) (r2 : JsVal),
      Insert.session_ i = Some s ->
      let st1 := snd (Insert.execute record1 (Build_Env i w)) in
      describe (Insert.table_ (this st1)) (world st1) = (Return tt, (tb, w2)) ->
      respond s (sent w2)
        (Insert.execute_request (Insert.set_table tb (this st1)) s record2)
        = Return r2 ->
      nullish r2 = false ->
      let st2 := snd (Insert.execute record2 st1) in
      Insert.success_ (this st2) = prop r2 "success" /\
      Insert.getErrorMessage (this st2) = prop r2 "message" /\
      Insert.affected (this st2) =
        (if truthy (prop r2 "success") then prop r2 "affected" else JNum 0) /\
      Insert.getReturnValues (this st2) =
        (if truthy (prop r2 "success") && truthy (Insert.returning_ i)
         then Some (returned_cursor s tb (Insert.returning_ i) r2)
         else None)).
Proof.
  split.
  - intros op1 op2 a s w r2 Hs st1 Hr Hn st2. subst st2.
    pose proof (run_op_session op1 (Build_Env a w)) as Hs1.
    fold st1 in Hs1. cbn [this] in Hs1. rewrite Hs in Hs1.
    destruct st1 as [a1 w1]; cbn [this world] in *.
    rewrite (run_op_state op2 a1 s w1 r2 Hs1 Hr Hn); cbn.
    destruct op2 as [v|close arrayfetch]; cbn; unfold after_mutating;
      try destruct (copies_affected v && truthy (prop r2 "success"));
      repeat split; reflexivity.
  - intros record1 record2 i s w w2 tb r2 Hs st1 Hd Hr Hn st2. subst st2.
    pose proof (insert_execute_configuration record1 (Build_Env i w))
      as (Hs1 & _ & Hret).
    fold st1 in Hs1, Hret. cbn [this] in Hs1, Hret. rewrite Hs in Hs1.
    destruct st1 as [i1 w1]; cbn [this world] in *.
    rewrite (insert_execute_returns record2 i1 s w1 w2 tb r2 Hd Hs1 Hr Hn).
    cbn. rewrite Hret. repeat split; reflexivity.
Qed.

Lemma C2_second_call_overwrites_witness :
  (let transport := scripted [ok_response 5; declined "X"] in
   let st1 := snd (@run_op transport (Mutate VInsert)
                     (Build_Env anysql0 world0)) in
   let st2 := snd (@run_op transport (Mutate VDelete) st1) in
   AnySQL.success_ (this st2) = JBool false /\
   AnySQL.getErrorMessage (this st2) = JStr "X" /\
   AnySQL.affected (this st2) = JNum 5) /\
  (let transport := scripted [inserted 1; declined "X"] in
   let st1 := snd (@Insert.execute transport described record0
                     (Build_Env insert0 world0)) in
   let st2 := snd (@Insert.execute transport described record0 st1) in
   Insert.affected (this st1) = JNum 1 /\
   Insert.success_ (this st2) = JBool false /\
   Insert.getErrorMessage (this st2) = JStr "X" /\
   Insert.affected (this st2) = JNum 0 /\
   Insert.getReturnValues (this st2) = None).
Proof.
  split.
  - exact (proj1 (@C2_second_call_overwrites
                    (scripted [ok_response 5; declined "X"]) described)
             (Mutate VInsert) (Mutate VDelete) anysql0 session0 world0
             (declined "X") eq_refl eq_refl eq_refl).
  - split; [reflexivity|].
    exact (proj2 (@C2_second_call_overwrites
                    (scripted [inserted 1; declined "X"]) described)
             record0 record0 insert0 session0 world0
             (world (snd (@Insert.execute
                            (scripted [inserted 1; declined "X"]) described
                            record0 (Build_Env insert0 world0))))
             table0 (declined "X") eq_refl eq_refl eq_refl eq_refl).
Defined.

(** ** C3: where the savepoint flag goes *)

(** C3, as the specification words it, does not hold for Insert: with
    [useSavePoint(true)] the request that [execute] hands to [invoke] has no
    [savepoint] member in its ["Table"] envelope; the flag is a member of the
    ["insert()"] object. *)
Lemma C3_insert_savepoint_inside_insert :
  let i := Insert.useSavePoint (JBool true) (Insert.constructor table0) in
  let st := snd (@Insert.execute (mock (ok_response 1)) described record0
                   (Build_Env i world0)) in
  exists request : JsVal,
    sent (world st) = [request] /\
    has_prop (prop request "Table") "savepoint" = false /\
    prop (prop request "Table") "savepoint" = JUndefined /\
    prop (prop (prop request "Table") "insert()") "savepoint" = JBool true.
Proof. eexists. cbn. repeat split. Qed.

(** C3 (amended): after [useSavePoint(b)], every request built by an AnySQL
    method carries [savepoint: b] as a member of the ["Sql"] envelope, next
    to invoke, source, session and (when there are bind values) bindvalues,
    and not inside ["select()"]; the request built by [Insert.execute]
    carries [savepoint: b] inside the ["insert()"] object and has no
    savepoint member in its ["Table"] envelope, which holds invoke, source,
    session and (when the table has bind values) bindvalues. *)
Theorem C3_savepoint_placement `{Transport} `{Describe} (b : bool) :
  (forall (op : Op) (a : AnySQL.t) (s : Session) (w : World),
      AnySQL.session_ a = Some s ->
      let a' := AnySQL.useSavePoint (JBool b) a in
      let request := op_request op a' s in
      let envelope := prop request "Sql" in
      sent (world (snd (run_op op (Build_Env a' w)))) = sent w ++ [request] /\
      prop envelope "savepoint" = JBool b /\
      has_prop (prop envelope "select()") "savepoint" = false /\
      prop envelope "invoke" = JStr (op_name op) /\
      prop envelope "source" = AnySQL.source_ a /\
      prop envelope "session" = sessionID s /\
      prop envelope "bindvalues" =
        (if truthy (AnySQL.bindvalues_ a) then AnySQL.bindvalues_ a
         else JUndefined)) /\
  (forall (record : JsRecord) (i : Insert.t) (s : Session) (w w1 : World)
          (tb : Table),
      Insert.session_ i = Some s ->
      describe (Insert.table_ i) w = (Return tt, (tb, w1)) ->
      let i' := Insert.useSavePoint (JBool b) i in
      let request := Insert.execute_request (Insert.set_table tb i') s record in
      let envelope := prop request "Table" in
      sent (world (snd (Insert.execute record (Build_Env i' w)))) =
        sent w1 ++ [request] /\
      prop (prop envelope "insert()") "savepoint" = JBool b /\
      has_prop envelope "savepoint" = false /\
      prop envelope "invoke" = JStr "insert" /\
      prop envelope "source" = Insert.source_ i /\
      prop envelope "session" = sessionID s /\
      prop envelope "bindvalues" =
        (if truthy (table_bindvalues tb) then table_bindvalues tb
         else JUndefined)).
Proof.
  split.
  - intros op a s w Hs a' request envelope.
    assert (Hs' : AnySQL.session_ a' = Some s) by exact Hs.
    split; [exact (run_op_sends op a' s w Hs')|].
    destruct (anysql_request_savepoint op a' s) as [Hsp Hsel].
    destruct (anysql_request_envelope op a' s) as (Hi & Hsrc & Hsid & Hbv).
    repeat split; assumption.
  - intros record i s w w1 tb Hs Hd i' request envelope.
    assert (Hs' : Insert.session_ i' = Some s) by exact Hs.
    split; [exact (insert_execute_sends record i' s w w1 tb Hd Hs')|].
    destruct (insert_request_savepoint (Insert.set_table tb i') s record)
      as [Hnot Hsp].
    destruct (insert_request_envelope (Insert.set_table tb i') s record)
      as (Hi & Hsrc & Hsid & Hbv).
    repeat split; assumption.
Qed.

Lemma C3_savepoint_placement_witness :
  (let a' := AnySQL.useSavePoint (JBool true) anysql0 in
   let request := op_request (Select JUndefined JUndefined) a' session0 in
   sent (world (snd (@run_op (mock (declined "X"))
                       (Select JUndefined JUndefined)
                       (Build_Env a' world0)))) = [request] /\
   prop (prop request "Sql") "savepoint" = JBool true /\
   has_prop (prop (prop request "Sql") "select()") "savepoint" = false) /\
  (let i' := Insert.useSavePoint (JBool true) insert0 in
   let request := Insert.execute_request i' session0 record0 in
   sent (world (snd (@Insert.execute (mock (declined "X")) described record0
                       (Build_Env i' world0)))) = [request] /\
   prop (prop (prop request "Table") "insert()") "savepoint" = JBool true /\
   has_prop (prop request "Table") "savepoint" = false).
Proof.
  split.
  - pose proof (proj1 (@C3_savepoint_placement (mock (declined "X")) described
                         true)
                  (Select JUndefined JUndefined) anysql0 session0 world0
                  eq_refl) as (Hsent & Hsp & Hsel & _).
    exact (conj Hsent (conj Hsp Hsel)).
  - pose proof (proj2 (@C3_savepoint_placement (mock (declined "X")) described
                         true)
                  record0 insert0 session0 world0 world0 table0
                  eq_refl eq_refl) as (Hsent & Hsp & Hnot & _).
    exact (conj Hsent (conj Hsp Hnot)).
Defined.

(** ** C4: the values array of an insert request *)

(** C4: for a record with n columns, the request that [Insert.execute] hands
    to [invoke] has, in ["insert()"], a [values] array of exactly n entries,
    and entry k is the pair of the record's k-th column name and k-th
    value. *)
Theorem C4_insert_values `{Transport} `{Describe} (record : JsRecord)
    (i : Insert.t) (s : Session) (w w1 : World) (tb : Table) :
  Insert.session_ i = Some s ->
  describe (Insert.table_ i) w = (Return tt, (tb, w1)) ->
  exists (request : JsVal) (pairs : list JsVal),
    sent (world (snd (Insert.execute record (Build_Env i w)))) =
      sent w1 ++ [request] /\
    prop (prop (prop request "Table") "insert()") "values" = JArr pairs /\
    length pairs = length (columns record) /\
    (forall k : nat,
        (k < length (columns record))%nat ->
        pairs !! k =
          Some (JObj [("column", index (columns record) k);
                      ("value", index (values record) k)])) /\
    (forall (k : nat) (c v : JsVal),
        columns record !! k = Some c ->
        values record !! k = Some v ->
        pairs !! k = Some (JObj [("column", c); ("value", v)])).
Proof.
  intros Hs Hd.
  exists (Insert.execute_request (Insert.set_table tb i) s record).
  exists (map (value_pair record) (seq 0 (length (columns record)))).
  assert (Hk : forall k : nat,
             (k < length (columns record))%nat ->
             map (value_pair record) (seq 0 (length (columns record))) !! k =
               Some (value_pair record k)).
  { intros k Hlt. rewrite list_lookup_fmap, lookup_seq_lt by assumption.
    reflexivity. }
  split; [exact (insert_execute_sends record i s w w1 tb Hd Hs)|].
  split; [apply insert_request_values|].
  split; [rewrite length_map, length_seq; reflexivity|].
  split; [exact Hk|].
  intros k c v Hc Hv.
  rewrite Hk by (apply lookup_lt_is_Some; eauto).
  unfold value_pair, index. rewrite Hc, Hv. reflexivity.
Qed.

Lemma C4_insert_values_witness :
  exists (request : JsVal) (pairs : list JsVal),
    sent (world (snd (@Insert.execute (mock (ok_response 1)) described record0
                        (Build_Env insert0 world0)))) =
      sent world0 ++ [request] /\
    prop (prop (prop request "Table") "insert()") "values" = JArr pairs /\
    length pairs = length (columns record0) /\
    (forall k : nat,
        (k < length (columns record0))%nat ->
        pairs !! k =
          Some (JObj [("column", index (columns record0) k);
                      ("value", index (values record0) k)])) /\
    (forall (k : nat) (c v : JsVal),
        columns record0 !! k = Some c ->
        values record0 !! k = Some v ->
        pairs !! k = Some (JObj [("column", c); ("value", v)])).
Proof.
  exact (@C4_insert_values (mock (ok_response 1)) described record0 insert0
           session0 world0 world0 table0 eq_refl eq_refl).
Defined.

(** ** C5: the constructor of AnySQL *)

(** C5, as the specification words it, does not hold: the constructor tests
    [!source], so with the session present and the source string present but
    empty it throws all the same. *)
Lemma C5_empty_source_throws :
  @AnySQL.constructor plain_messages (Some session0) (JStr "") JUndefined
    world0 =
  (Throw (Thrown (JStr "SOURCE_IS_NULL: AnySQL")), world0).
Proof. reflexivity. Qed.

(** C5 (amended): constructing an AnySQL sends nothing to the session, and it
    throws exactly when the source is falsy (null, absent or the empty
    string) or the session is null or absent; with a non-empty source and a
    session it gives the instance. *)
Theorem C5_constructor_preconditions `{Messages} (session : option Session)
    (source bindvalues : JsVal) (w : World) :
  let res := AnySQL.constructor session source bindvalues w in
  snd res = w /\
  (returned (fst res) = false <->
     truthy source = false \/ session = None) /\
  (returned (fst res) = true <->
     truthy source = true /\ exists s : Session, session = Some s) /\
  truthy JNull = false /\ truthy JUndefined = false /\
  (forall text : string, truthy (JStr text) = false <-> text = "").
Proof.
  cbn zeta. unfold AnySQL.constructor, throw, ret.
  destruct (truthy source) eqn:Ht; destruct session as [s|]; cbn;
    repeat split; try tauto; try (intros; discriminate); eauto.
  all: try (intros [Hf|Hf]; discriminate).
  all: try (intros [_ [s' Hs']]; discriminate).
  all: try (intros [Hf _]; discriminate).
  all: try (destruct text; cbn; intros; congruence).
  all: try (intros ->; reflexivity).
Qed.

(** ** C6: a declined operation *)

(** C6: for every operation of AnySQL (execute, insert, update, delete,
    select) and for [Insert.execute], when [invoke] resolves to a response
    with success=false and message="X", the call returns without throwing,
    and afterwards [failed()] is true and [getErrorMessage()] is "X". *)
Theorem C6_declined_operation `{Transport} `{Describe} (X : string) :
  (forall (op : Op) (a : AnySQL.t) (s : Session) (w : World) (r : JsVal),
      AnySQL.session_ a = Some s ->
      respond s (sent w) (op_request op a s) = Return r ->
      prop r "success" = JBool false ->
      prop r "message" = JStr X ->
      let res := run_op op (Build_Env a w) in
      returned (fst res) = true /\
      AnySQL.failed (this (snd res)) = true /\
      AnySQL.getErrorMessage (this (snd res)) = JStr X) /\
  (forall (record : JsRecord) (i : Insert.t) (s : Session) (w w1 : World)
          (tb : Table) (r : JsVal),
      Insert.session_ i = Some s ->
      describe (Insert.table_ i) w = (Return tt, (tb, w1)) ->
      respond s (sent w1)
        (Insert.execute_request (Insert.set_table tb i) s record) = Return r ->
      prop r "success" = JBool false ->
      prop r "message" = JStr X ->
      let res := Insert.execute record (Build_Env i w) in
      fst res = Return (JBool false) /\
      Insert.failed (this (snd res)) = true /\
      Insert.getErrorMessage (this (snd res)) = JStr X).
Proof.
  split.
  - intros op a s w r Hs Hr Hsucc Hmsg res. subst res.
    assert (Hn : nullish r = false).
    { apply (prop_defined_not_nullish r "message"). congruence. }
    split.
    + destruct op as [v|close arrayfetch]; cbn in *; unfold bind.
      * rewrite (run_mutating_returns v a s w r Hs Hr Hn). reflexivity.
      * assert (Ht : truthy (prop r "success") = false)
          by (rewrite Hsucc; reflexivity).
        pose proof (select_returns_null close arrayfetch a s w r Hs Hr Hn Ht)
          as Hnull.
        destruct (AnySQL.select close arrayfetch (Build_Env a w))
          as [[c|e] st']; cbn in *; [reflexivity|discriminate].
    + rewrite (run_op_state op a s w r Hs Hr Hn); cbn.
      unfold AnySQL.failed, AnySQL.getErrorMessage.
      destruct op as [v|close arrayfetch]; cbn; unfold after_mutating;
        rewrite Hsucc; cbn; rewrite ?andb_false_r; cbn;
        rewrite ?Hsucc, ?Hmsg; split; reflexivity.
  - intros record i s w w1 tb r Hs Hd Hr Hsucc Hmsg res. subst res.
    assert (Hn : nullish r = false).
    { apply (prop_defined_not_nullish r "message"). congruence. }
    rewrite (insert_execute_returns record i s w w1 tb r Hd Hs Hr Hn); cbn.
    unfold Insert.failed. cbn. rewrite Hsucc, Hmsg. repeat split.
Qed.

Lemma C6_declined_operation_witness :
  (let res := @run_op (mock (declined "X")) (Select JUndefined JUndefined)
                (Build_Env anysql0 world0) in
   returned (fst res) = true /\
   AnySQL.failed (this (snd res)) = true /\
   AnySQL.getErrorMessage (this (snd res)) = JStr "X") /\
  (let res := @Insert.execute (mock (declined "X")) described record0
                (Build_Env insert0 world0) in
   fst res = Return (JBool false) /\
   Insert.failed (this (snd res)) = true /\
   Insert.getErrorMessage (this (snd res)) = JStr "X").
Proof.
  split.
  - exact (proj1 (@C6_declined_operation (mock (declined "X")) described "X")
             (Select JUndefined JUndefined) anysql0 session0 world0
             (declined "X") eq_refl eq_refl eq_refl eq_refl).
  - exact (proj2 (@C6_declined_operation (mock (declined "X")) described "X")
             record0 insert0 session0 world0 world0 table0 (declined "X")
             eq_refl eq_refl eq_refl eq_refl eq_refl).
Defined.

(** ** C7: the columns of the cursor that [select] returns *)

(** C7: when the response to [select] has success=true and one column
    descriptor, named "A", [select] returns a cursor, and the column map
    handed to that cursor has exactly one key, the lower-cased "a". *)
Theorem C7_select_single_column `{Transport} (close arrayfetch : JsVal)
    (a : AnySQL.t) (s : Session) (w : World) (r d : JsVal) :
  AnySQL.session_ a = Some s ->
  respond s (sent w) (AnySQL.select_request a s close arrayfetch) = Return r ->
  prop r "success" = JBool true ->
  prop r "columns" = JArr [d] ->
  prop d "name" = JStr "A" ->
  exists c : Cursor,
    fst (AnySQL.select close arrayfetch (Build_Env a w)) = Return (Some c) /\
    dom (cursor_columns c) = {["a"]} /\
    size (cursor_columns c) = 1%nat /\
    (forall key : string,
        is_Some (cursor_columns c !! key) <-> key = "a") /\
    cursor_columns c !! "a" = Some (coldef_of d) /\
    prop (cursor_response c) "columns" = JArr [JStr "A"].
Proof.
  intros Hs Hr Hsucc Hcols Hname.
  assert (Ht : truthy (prop r "success") = true) by (rewrite Hsucc; reflexivity).
  assert (Hd : forallb descriptor_ok [d] = true).
  { cbn. unfold descriptor_ok. rewrite Hname. reflexivity. }
  eexists. split.
  - exact (select_returns_cursor close arrayfetch a s w r [d] Hs Hr Ht Hcols Hd).
  - cbn. unfold column_key. rewrite Hname. cbn.
    change (String "a" EmptyString) with "a".
    split; [|split; [|split; [|split]]].
    + rewrite dom_insert_L, dom_empty_L. set_solver.
    + rewrite insert_empty. apply map_size_singleton.
    + intros key. rewrite insert_empty, lookup_singleton_is_Some.
      split; intros Hkey; symmetry; exact Hkey.
    + apply lookup_insert_eq.
    + apply (prop_set_path_eq r "columns" "columns"). congruence.
Qed.

Lemma C7_select_single_column_witness :
  exists c : Cursor,
    fst (@AnySQL.select
           (mock (JObj [("success", JBool true);
                        ("columns", JArr [JObj [("name", JStr "A")]])]))
           JUndefined JUndefined (Build_Env anysql0 world0)) =
      Return (Some c) /\
    dom (cursor_columns c) = {["a"]} /\
    size (cursor_columns c) = 1%nat /\
    (forall key : string,
        is_Some (cursor_columns c !! key) <-> key = "a") /\
    cursor_columns c !! "a" = Some (coldef_of (JObj [("name", JStr "A")])) /\
    prop (cursor_response c) "columns" = JArr [JStr "A"].
Proof.
  exact (@C7_select_single_column
           (mock (JObj [("success", JBool true);
                        ("columns", JArr [JObj [("name", JStr "A")]])]))
           JUndefined JUndefined anysql0 session0 world0
           (JObj [("success", JBool true);
                  ("columns", JArr [JObj [("name", JStr "A")]])])
           (JObj [("name", JStr "A")])
           eq_refl eq_refl eq_refl eq_refl eq_refl).
Defined.

(** ** C8: the cursor of the returned values *)



(** ** C9: what [select] returns *)

(** C9, as the specification words it, does not hold for every response: on
    the response [{success: true}], which has no [columns],
    [response.columns.forEach] throws a TypeError, so [select] returns
    neither null nor a cursor although r.success is true. *)
Lemma C9_success_without_columns_throws :
  let r := JObj [("success", JBool true)] in
  let res := fst (@AnySQL.select (mock r) JUndefined JUndefined
                    (Build_Env anysql0 world0)) in
  prop r "success" = JBool true /\
  res = Throw TypeError /\
  res <> Return None /\
  (forall c : Cursor, res <> Return (Some c)).
Proof. cbn. repeat split; intros; discriminate. Qed.

(** C9 (amended): for every response r to [select] that is as the data model
    has it (r.success is a boolean and, when it is true, r.columns is an
    array of column descriptors that each have a string name), [select]
    returns null exactly when r.success is false and a cursor exactly when
    r.success is true; the mutating methods return r.success itself. *)
Theorem C9_select_null_or_cursor `{Transport} (close arrayfetch : JsVal)
    (a : AnySQL.t) (s : Session) (w : World) (r : JsVal) :
  AnySQL.session_ a = Some s ->
  respond s (sent w) (AnySQL.select_request a s close arrayfetch) = Return r ->
  select_response_ok r = true ->
  let res := fst (AnySQL.select close arrayfetch (Build_Env a w)) in
  (res = Return None <-> prop r "success" = JBool false) /\
  ((exists c : Cursor, res = Return (Some c)) <->
     prop r "success" = JBool true) /\
  (forall (v : Verb) (a' : AnySQL.t) (w' : World) (r' : JsVal),
      AnySQL.session_ a' = Some s ->
      respond s (sent w') (verb_request v a' s)
        = Return r' ->
      nullish r' = false ->
      fst (run_mutating v (Build_Env a' w')) = Return (prop r' "success")).
Proof.
  intros Hs Hr Hok res.
  pose proof (select_response_ok_not_nullish r Hok) as Hn.
  assert (Hres : (prop r "success" = JBool false /\ res = Return None) \/
                 (prop r "success" = JBool true /\
                  exists c : Cursor, res = Return (Some c))).
  { subst res. unfold select_response_ok in Hok.
    destruct (prop r "success") as [| |[|]| | | |] eqn:Hsucc; try discriminate.
    - right. split; [reflexivity|].
      destruct (prop r "columns") as [| | | | |ds|] eqn:Hcols; try discriminate.
      eexists.
      apply (select_returns_cursor close arrayfetch a s w r ds Hs Hr); auto.
      rewrite Hsucc. reflexivity.
    - left. split; [reflexivity|].
      apply (select_returns_null close arrayfetch a s w r Hs Hr Hn).
      rewrite Hsucc. reflexivity. }
  split; [|split].
  - destruct Hres as [[Hsucc Hnull]|[Hsucc [c Hc]]]; split; intros Hx;
      try assumption; rewrite ?Hsucc in *; congruence.
  - destruct Hres as [[Hsucc Hnull]|[Hsucc [c Hc]]]; split; intros Hx;
      try assumption; rewrite ?Hsucc in *; try congruence; eauto.
    destruct Hx as [c Hc]. congruence.
  - intros v a' w' r' Hs' Hr' Hn'.
    rewrite (run_mutating_returns v a' s w' r' Hs' Hr' Hn'). reflexivity.
Qed.

Lemma C9_select_null_or_cursor_witness :
  (let res := fst (@AnySQL.select (mock (declined "X")) JUndefined JUndefined
                     (Build_Env anysql0 world0)) in
   (res = Return None <-> prop (declined "X") "success" = JBool false) /\
   ((exists c : Cursor, res = Return (Some c)) <->
      prop (declined "X") "success" = JBool true)) /\
  (let r := JObj [("success", JBool true);
                  ("columns", JArr [JObj [("name", JStr "A")]])] in
   let res := fst (@AnySQL.select (mock r) JUndefined JUndefined
                     (Build_Env anysql0 world0)) in
   (res = Return None <-> prop r "success" = JBool false) /\
   ((exists c : Cursor, res = Return (Some c)) <->
      prop r "success" = JBool true)).
Proof.
  split.
  - pose proof (@C9_select_null_or_cursor (mock (declined "X")) JUndefined
                  JUndefined anysql0 session0 world0 (declined "X")
                  eq_refl eq_refl eq_refl) as (Hnull & Hcursor & _).
    exact (conj Hnull Hcursor).
  - intros r.
    pose proof (@C9_select_null_or_cursor (mock r) JUndefined JUndefined
                  anysql0 session0 world0 r eq_refl eq_refl eq_refl)
      as (Hnull & Hcursor & _).
    exact (conj Hnull Hcursor).
Defined.

(** ** C10: the resets at the start of [Insert.execute] *)

(** C10: [Insert.execute] sets the affected count to 0 and the cursor to null
    before anything else, and writes them again only after a success; so
    whenever it returns false (and whenever it does not return a truthy
    value at all), [affected()] is 0 and [getReturnValues()] is null
    afterwards, whatever an earlier call had left. *)
Theorem C10_failed_insert_is_reset `{Transport} `{Describe}
    (record : JsRecord) (st : Env Insert.t) :
  (fst (Insert.execute record st) = Return (JBool false) ->
   Insert.affected (this (snd (Insert.execute record st))) = JNum 0 /\
   Insert.getReturnValues (this (snd (Insert.execute record st))) = None) /\
  (returned_truthy (fst (Insert.execute record st)) = false ->
   Insert.affected (this (snd (Insert.execute record st))) = JNum 0 /\
   Insert.getReturnValues (this (snd (Insert.execute record st))) = None).
Proof.
  split.
  - intros Hret. apply insert_execute_resets. rewrite Hret. reflexivity.
  - apply insert_execute_resets.
Qed.

Lemma C10_failed_insert_is_reset_witness :
  let transport := scripted [inserted 1; declined "X"] in
  let st1 := snd (@Insert.execute transport described record0
                    (Build_Env insert0 world0)) in
  Insert.affected (this st1) = JNum 1 /\
  Insert.getReturnValues (this st1) <> None /\
  Insert.affected
    (this (snd (@Insert.execute transport described record0 st1))) = JNum 0 /\
  Insert.getReturnValues
    (this (snd (@Insert.execute transport described record0 st1))) = None.
Proof.
  split; [reflexivity|]. split; [discriminate|].
  exact (proj1 (@C10_failed_insert_is_reset
                  (scripted [inserted 1; declined "X"]) described record0
                  (snd (@Insert.execute
                          (scripted [inserted 1; declined "X"]) described
                          record0 (Build_Env insert0 world0))))
           eq_refl).
Defined.

(** * Further properties of the code *)

(** ** The constructor of AnySQL *)

Lemma truthy_as_array (v : JsVal) : truthy (as_array v) = true.
Proof. unfold as_array. destruct v; reflexivity. Qed.

Lemma constructor_returns `{Messages} (s : Session) (source bindvalues : JsVal)
    (w : World) :
  truthy source = true ->
  AnySQL.constructor (Some s) source bindvalues w =
    (Return (AnySQL.mk JNull (JNum 0) (JBool true) source (Some s) JNull
               (if nullish bindvalues then JNull else as_array bindvalues)),
     w).
Proof.
  intros Ht. unfold AnySQL.constructor, as_array, ret. rewrite Ht; cbn.
  destruct bindvalues; reflexivity.
Qed.

(** X1: with a truthy source and a session, the constructor gives an instance
    that has not failed, has no error message, 0 affected rows and no
    savepoint flag, whose getters give back the source and the session, and
    whose bind values are null when none were passed, the array that was
    passed, or the one-element array of the single value that was passed. *)
Theorem X1_constructor_state `{Messages} (s : Session)
    (source bindvalues : JsVal) (w : World) :
  truthy source = true ->
  exists a : AnySQL.t,
    AnySQL.constructor (Some s) source bindvalues w = (Return a, w) /\
    AnySQL.source a = source /\
    AnySQL.session a = Some s /\
    AnySQL.failed a = false /\
    AnySQL.getErrorMessage a = JNull /\
    AnySQL.affected a = JNum 0 /\
    AnySQL.savepoint_ a = JNull /\
    AnySQL.bindvalues_ a =
      match bindvalues with
      | JUndefined | JNull => JNull
      | JArr items => JArr items
      | single => JArr [single]
      end.
Proof.
  intros Ht. eexists. split; [exact (constructor_returns s _ _ w Ht)|].
  cbn. repeat split. destruct bindvalues; reflexivity.
Qed.

Lemma X1_constructor_state_witness :
  exists a : AnySQL.t,
    @AnySQL.constructor plain_messages (Some session0)
      (JStr "delete from emp where id = :id")
      (JObj [("name", JStr "id"); ("value", JNum 7)]) world0 =
      (Return a, world0) /\
    AnySQL.failed a = false /\
    AnySQL.bindvalues_ a =
      JArr [JObj [("name", JStr "id"); ("value", JNum 7)]].
Proof.
  destruct (@X1_constructor_state plain_messages session0
              (JStr "delete from emp where id = :id")
              (JObj [("name", JStr "id"); ("value", JNum 7)]) world0 eq_refl)
    as (a & Ha & _ & _ & Hf & _ & _ & _ & Hb).
  exists a. exact (conj Ha (conj Hf Hb)).
Defined.

(** X2: the constructor checks the source before the session: with a falsy
    source it throws the SOURCE_IS_NULL message whether or not there is a
    session, and the SESSION_IS_NULL message is thrown only for a truthy
    source without a session.  Either way nothing has been sent. *)
Theorem X2_constructor_messages `{Messages} (session : option Session)
    (source bindvalues : JsVal) (w : World) :
  (truthy source = false ->
   AnySQL.constructor session source bindvalues w =
     (Throw (Thrown (Messages_get "SOURCE_IS_NULL" "AnySQL")), w)) /\
  (truthy source = true ->
   AnySQL.constructor None source bindvalues w =
     (Throw (Thrown (Messages_get "SESSION_IS_NULL" "AnySQL")), w)).
Proof.
  split; intros Ht; unfold AnySQL.constructor, throw; rewrite Ht; reflexivity.
Qed.

Lemma X2_constructor_messages_witness :
  @AnySQL.constructor plain_messages None JNull JUndefined world0 =
    (Throw (Thrown (JStr "SOURCE_IS_NULL: AnySQL")), world0) /\
  @AnySQL.constructor plain_messages None (JStr "select 1") JUndefined world0 =
    (Throw (Thrown (JStr "SESSION_IS_NULL: AnySQL")), world0).
Proof.
  split.
  - exact (proj1 (@X2_constructor_messages plain_messages None JNull
                    JUndefined world0) eq_refl).
  - exact (proj2 (@X2_constructor_messages plain_messages None
                    (JStr "select 1") JUndefined world0) eq_refl).
Defined.

(** ** The requests, member by member *)

Lemma truthy_default_false (v : JsVal) :
  truthy (if nullish v then JBool false else v) = truthy v.
Proof. destruct v; reflexivity. Qed.

Lemma op_request_shape (op : Op) (a : AnySQL.t) (s : Session) :
  op_request op a s =
    JObj [("Sql",
           JObj ([("invoke", JStr (op_name op));
                  ("source", AnySQL.source_ a);
                  ("session", sessionID s)]
                 ++ select_members op
                 ++ optional_member (truthy (AnySQL.bindvalues_ a))
                      "bindvalues" (AnySQL.bindvalues_ a)
                 ++ optional_member (negb (nullish (AnySQL.savepoint_ a)))
                      "savepoint" (AnySQL.savepoint_ a)))].
Proof.
  destruct op as [[]|close arrayfetch]; cbn;
    unfold AnySQL.execute_request, AnySQL.insert_request,
      AnySQL.update_request, AnySQL.delete_request, AnySQL.select_request,
      optional_member;
    rewrite ?truthy_default_false;
    destruct (truthy (AnySQL.bindvalues_ a));
    destruct (nullish (AnySQL.savepoint_ a)); cbn; try reflexivity;
    destruct (truthy close); reflexivity.
Qed.

Lemma insert_request_shape (i : Insert.t) (s : Session) (record : JsRecord) :
  Insert.execute_request i s record =
    JObj [("Table",
           JObj ([("invoke", JStr "insert");
                  ("source", Insert.source_ i);
                  ("session", sessionID s);
                  ("insert()",
                   JObj (optional_member (negb (nullish (Insert.savepoint_ i)))
                           "savepoint" (Insert.savepoint_ i)
                         ++ [("values",
                              JArr (map (value_pair record)
                                      (seq 0 (length (columns record)))))]
                         ++ optional_member (truthy (Insert.returning_ i))
                              "returning" (Insert.returning_ i)))]
                 ++ optional_member
                      (truthy (table_bindvalues (Insert.table_ i)))
                      "bindvalues" (table_bindvalues (Insert.table_ i))))].
Proof.
  unfold Insert.execute_request, optional_member.
  rewrite (for_loop_collect (value_pair record)).
  destruct (truthy (table_bindvalues (Insert.table_ i)));
    destruct (nullish (Insert.savepoint_ i));
    destruct (truthy (Insert.returning_ i)); reflexivity.
Qed.

(** X3: an AnySQL that the constructor has built puts a [bindvalues] member
    in its requests exactly when bind values were passed to the constructor
    (an empty array included), holding them as an array; it puts no
    [savepoint] member in them until [useSavePoint] is called with a flag
    that is not null, and [useSavePoint(null)] takes the member out again. *)
Theorem X3_constructed_requests `{Messages} (op : Op) (s : Session)
    (source bindvalues flag : JsVal) (w : World) :
  truthy source = true ->
  exists a : AnySQL.t,
    AnySQL.constructor (Some s) source bindvalues w = (Return a, w) /\
    has_prop (prop (op_request op a s) "Sql") "bindvalues" =
      negb (nullish bindvalues) /\
    prop (prop (op_request op a s) "Sql") "bindvalues" =
      (if nullish bindvalues then JUndefined else as_array bindvalues) /\
    has_prop (prop (op_request op a s) "Sql") "savepoint" = false /\
    has_prop
      (prop (op_request op (AnySQL.useSavePoint flag a) s) "Sql") "savepoint" =
      negb (nullish flag) /\
    op_request op (AnySQL.useSavePoint JNull (AnySQL.useSavePoint flag a)) s =
      op_request op a s.
Proof.
  intros Ht. eexists. split; [exact (constructor_returns s _ _ w Ht)|].
  rewrite !op_request_shape. cbn.
  assert (Hb : truthy (if nullish bindvalues then JNull
                       else as_array bindvalues) = negb (nullish bindvalues)).
  { destruct (nullish bindvalues); [reflexivity|apply truthy_as_array]. }
  rewrite Hb. unfold optional_member.
  destruct op as [v|close arrayfetch]; cbn;
    destruct (nullish bindvalues); cbn;
    destruct (nullish flag); cbn; repeat split; reflexivity.
Qed.

Lemma X3_constructed_requests_witness :
  exists a : AnySQL.t,
    @AnySQL.constructor plain_messages (Some session0) (JStr "select 1")
      (JArr []) world0 = (Return a, world0) /\
    has_prop (prop (op_request (Mutate VExecute) a session0) "Sql")
      "bindvalues" = true /\
    prop (prop (op_request (Mutate VExecute) a session0) "Sql") "bindvalues" =
      JArr [] /\
    has_prop (prop (op_request (Mutate VExecute) a session0) "Sql")
      "savepoint" = false.
Proof.
  destruct (@X3_constructed_requests plain_messages (Mutate VExecute) session0
              (JStr "select 1") (JArr []) (JBool false) world0 eq_refl)
    as (a & Ha & Hh & Hb & Hs & _).
  exists a. exact (conj Ha (conj Hh (conj Hb Hs))).
Defined.

(** X4: every method of AnySQL hands [invoke] one request of this form and
    no other members: an object with the single member ["Sql"], whose
    members are, in this order, invoke (the method's name), source, session;
    for [select], ["select()"] holding the page size ([arrayfetch], or 1 when
    that is null or absent; 0 is passed on as 0) and [cursor: false] exactly
    when [close] is truthy; bindvalues when truthy; savepoint when not
    null. *)
Theorem X4_anysql_request_members `{Transport} (op : Op) (a : AnySQL.t)
    (s : Session) (w : World) :
  AnySQL.session_ a = Some s ->
  sent (world (snd (run_op op (Build_Env a w)))) =
    sent w ++
    [JObj [("Sql",
            JObj ([("invoke", JStr (op_name op));
                   ("source", AnySQL.source_ a);
                   ("session", sessionID s)]
                  ++ select_members op
                  ++ optional_member (truthy (AnySQL.bindvalues_ a))
                       "bindvalues" (AnySQL.bindvalues_ a)
                  ++ optional_member (negb (nullish (AnySQL.savepoint_ a)))
                       "savepoint" (AnySQL.savepoint_ a)))]].
Proof.
  intros Hs. rewrite <- op_request_shape. apply run_op_sends. exact Hs.
Qed.

Lemma X4_anysql_request_members_witness :
  sent (world (snd (@run_op (mock (declined "X")) (Select (JBool true) (JNum 0))
                      (Build_Env (AnySQL.useSavePoint (JBool false) anysql0)
                         world0)))) =
    [JObj [("Sql",
            JObj [("invoke", JStr "select");
                  ("source", JStr "update emp set sal = sal * 2");
                  ("session", JStr "s1");
                  ("select()",
                   JObj [("page-size", JNum 0); ("cursor", JBool false)]);
                  ("savepoint", JBool false)])]].
Proof.
  exact (@X4_anysql_request_members (mock (declined "X"))
           (Select (JBool true) (JNum 0))
           (AnySQL.useSavePoint (JBool false) anysql0) session0 world0 eq_refl).
Defined.

(** X5: the request that [Insert.execute] hands to [invoke] has the single
    member ["Table"], whose members are, in this order, invoke ("insert"),
    source, session, ["insert()"] and, when the described table has truthy
    bind values, bindvalues; ["insert()"] holds savepoint (when not null),
    values (one pair per column of the record) and returning (when return
    columns are set), and nothing else. *)
Theorem X5_insert_request_members `{Transport} `{Describe} (record : JsRecord)
    (i : Insert.t) (s : Session) (w w1 : World) (tb : Table) :
  Insert.session_ i = Some s ->
  describe (Insert.table_ i) w = (Return tt, (tb, w1)) ->
  sent (world (snd (Insert.execute record (Build_Env i w)))) =
    sent w1 ++
    [JObj [("Table",
            JObj ([("invoke", JStr "insert");
                   ("source", Insert.source_ i);
                   ("session", sessionID s);
                   ("insert()",
                    JObj (optional_member
                            (negb (nullish (Insert.savepoint_ i)))
                            "savepoint" (Insert.savepoint_ i)
                          ++ [("values",
                               JArr (map (value_pair record)
                                       (seq 0 (length (columns record)))))]
                          ++ optional_member (truthy (Insert.returning_ i))
                               "returning" (Insert.returning_ i)))]
                  ++ optional_member (truthy (table_bindvalues tb))
                       "bindvalues" (table_bindvalues tb)))]].
Proof.
  intros Hs Hd.
  rewrite (insert_execute_sends record i s w w1 tb Hd Hs).
  rewrite insert_request_shape. reflexivity.
Qed.

Lemma X5_insert_request_members_witness :
  sent (world (snd (@Insert.execute (mock (declined "X")) described
                      {| columns := [JStr "id"; JStr "name"];
                         values := [JNum 7] |}
                      (Build_Env insert0 world0)))) =
    [JObj [("Table",
            JObj [("invoke", JStr "insert");
                  ("source", JStr "emp");
                  ("session", JStr "s1");
                  ("insert()",
                   JObj [("values",
                          JArr [JObj [("column", JStr "id");
                                      ("value", JNum 7)];
                                JObj [("column", JStr "name");
                                      ("value", JUndefined)]]);
                         ("returning", JArr [JStr "id"])])])]].
Proof.
  exact (@X5_insert_request_members (mock (declined "X")) described
           {| columns := [JStr "id"; JStr "name"]; values := [JNum 7] |}
           insert0 session0 world0 world0 table0 eq_refl eq_refl).
Defined.

(** ** Calls in sequence *)

Section Sequences.
Context `{Transport}.

(** No method of AnySQL changes the source, the session, the savepoint flag
    or the bind values of its instance, however the call ends. *)
Lemma run_op_configuration (op : Op) (st : Env AnySQL.t) :
  let a' := this (snd (run_op op st)) in
  AnySQL.source_ a' = AnySQL.source_ (this st) /\
  AnySQL.session_ a' = AnySQL.session_ (this st) /\
  AnySQL.savepoint_ a' = AnySQL.savepoint_ (this st) /\
  AnySQL.bindvalues_ a' = AnySQL.bindvalues_ (this st).
Proof.
  destruct st as [a w]; cbn [this].
  destruct (AnySQL.session_ a) as [s|] eqn:Hs.
  - destruct (respond s (sent w) (op_request op a s)) as [r|e] eqn:Hr;
      [destruct (nullish r) eqn:Hn|].
    + destruct op as [[]|close arrayfetch]; cbn in *;
        unfold AnySQL.execute, AnySQL.insert, AnySQL.update, AnySQL.delete,
          AnySQL.select; unfold_steps; cbn; rewrite Hs; cbn;
        rewrite Hr, Hn; cbn; repeat split; assumption.
    + rewrite (run_op_state op a s w r Hs Hr Hn); cbn.
      destruct op as [v|close arrayfetch]; cbn; unfold after_mutating;
        try destruct (copies_affected v && truthy (prop r "success"));
        repeat split; assumption.
    + destruct op as [[]|close arrayfetch]; cbn in *;
        unfold AnySQL.execute, AnySQL.insert, AnySQL.update, AnySQL.delete,
          AnySQL.select; unfold_steps; cbn; rewrite Hs; cbn;
        rewrite Hr; cbn; repeat split; assumption.
  - destruct op as [[]|close arrayfetch]; cbn in *;
      unfold AnySQL.execute, AnySQL.insert, AnySQL.update, AnySQL.delete,
        AnySQL.select; unfold_steps; cbn; rewrite Hs; cbn;
      repeat split; assumption.
Qed.

(** A request depends on the configuration of the instance only. *)
Lemma op_request_configuration (op : Op) (a a' : AnySQL.t) (s : Session) :
  AnySQL.source_ a' = AnySQL.source_ a ->
  AnySQL.savepoint_ a' = AnySQL.savepoint_ a ->
  AnySQL.bindvalues_ a' = AnySQL.bindvalues_ a ->
  op_request op a' s = op_request op a s.
Proof.
  intros Hsrc Hsp Hbv. rewrite !op_request_shape, Hsrc, Hsp, Hbv. reflexivity.
Qed.

Lemma run_ops_sends (ops : list Op) (a : AnySQL.t) (s : Session) (w : World) :
  AnySQL.session_ a = Some s ->
  let st' := run_ops ops (Build_Env a w) in
  sent (world st') = sent w ++ map (fun op => op_request op a s) ops /\
  AnySQL.source_ (this st') = AnySQL.source_ a /\
  AnySQL.session_ (this st') = Some s /\
  AnySQL.savepoint_ (this st') = AnySQL.savepoint_ a /\
  AnySQL.bindvalues_ (this st') = AnySQL.bindvalues_ a.
Proof.
  intros Hs. cbn zeta. unfold run_ops.
  induction ops as [|op ops IH] using rev_ind.
  - cbn. rewrite app_nil_r. repeat split. exact Hs.
  - rewrite fold_left_app, map_app. cbn [fold_left map].
    destruct IH as (Hsent & Hsrc & Hses & Hsp & Hbv).
    destruct (fold_left (fun st op => snd (run_op op st)) ops (Build_Env a w))
      as [a1 w1] eqn:Hfold; cbn [this world] in *.
    pose proof (run_op_configuration op (Build_Env a1 w1))
      as (Hsrc' & Hses' & Hsp' & Hbv'); cbn [this] in *.
    rewrite (run_op_sends op a1 s w1 Hses), Hsent, <- app_assoc.
    rewrite (op_request_configuration op a a1 s Hsrc Hsp Hbv).
    repeat split; congruence.
Qed.

End Sequences.

(** X6: calls never change the configuration of an AnySQL (source, session,
    savepoint flag, bind values), however they end; so a sequence of calls on
    one instance sends exactly one request per call, in the order of the
    calls, and each is the request the instance would have built for that
    method before the first call. *)
Theorem X6_calls_in_sequence `{Transport} (ops : list Op) (a : AnySQL.t)
    (s : Session) (w : World) :
  AnySQL.session_ a = Some s ->
  let st' := run_ops ops (Build_Env a w) in
  sent (world st') = sent w ++ map (fun op => op_request op a s) ops /\
  length (sent (world st')) = (length (sent w) + length ops)%nat /\
  AnySQL.source (this st') = AnySQL.source a /\
  AnySQL.session (this st') = AnySQL.session a /\
  AnySQL.savepoint_ (this st') = AnySQL.savepoint_ a /\
  AnySQL.bindvalues_ (this st') = AnySQL.bindvalues_ a.
Proof.
  intros Hs st'.
  destruct (run_ops_sends ops a s w Hs) as (Hsent & Hsrc & Hses & Hsp & Hbv).
  fold st' in Hsent, Hsrc, Hses, Hsp, Hbv.
  split; [exact Hsent|].
  split; [rewrite Hsent, length_app, length_map; reflexivity|].
  unfold AnySQL.source, AnySQL.session. rewrite Hs.
  repeat split; assumption.
Qed.

Lemma X6_calls_in_sequence_witness :
  let st' := @run_ops (scripted [ok_response 5; declined "X"])
               [Mutate VInsert; Mutate VInsert; Select JUndefined JUndefined]
               (Build_Env anysql0 world0) in
  sent (world st') =
    [op_request (Mutate VInsert) anysql0 session0;
     op_request (Mutate VInsert) anysql0 session0;
     op_request (Select JUndefined JUndefined) anysql0 session0] /\
  length (sent (world st')) = 3%nat.
Proof.
  destruct (@X6_calls_in_sequence (scripted [ok_response 5; declined "X"])
              [Mutate VInsert; Mutate VInsert; Select JUndefined JUndefined]
              anysql0 session0 world0 eq_refl) as (Hsent & Hlen & _).
  exact (conj Hsent Hlen).
Defined.

(** ** When the session does not answer with an object *)

(** X7: when [invoke] rejects, every method of AnySQL rejects with the same
    reason, after its one request has gone out, and leaves the instance as it
    was: [failed()], [getErrorMessage()] and [affected()] still report the
    call before. *)
Theorem X7_invoke_rejects `{Transport} (op : Op) (a : AnySQL.t) (s : Session)
    (w : World) (e : Exn) :
  AnySQL.session_ a = Some s ->
  respond s (sent w) (op_request op a s) = Throw e ->
  run_op op (Build_Env a w) =
    (Throw e, Build_Env a {| sent := sent w ++ [op_request op a s] |}).
Proof.
  intros Hs Hr.
  destruct op as [[]|close arrayfetch]; cbn in *;
    unfold AnySQL.execute, AnySQL.insert, AnySQL.update, AnySQL.delete,
      AnySQL.select; unfold_steps; cbn; rewrite Hs; cbn;
    rewrite Hr; reflexivity.
Qed.

Lemma X7_invoke_rejects_witness :
  @run_op (scripted []) (Mutate VUpdate) (Build_Env anysql0 world0) =
    (Throw TypeError,
     Build_Env anysql0
       {| sent := [op_request (Mutate VUpdate) anysql0 session0] |}).
Proof.
  exact (@X7_invoke_rejects (scripted []) (Mutate VUpdate) anysql0 session0
           world0 TypeError eq_refl eq_refl).
Defined.

(** X8: when [invoke] resolves to null or undefined, every method of AnySQL
    throws a TypeError at [response.message], after its request has gone
    out, and leaves the instance as it was. *)
Theorem X8_null_response `{Transport} (op : Op) (a : AnySQL.t) (s : Session)
    (w : World) (r : JsVal) :
  AnySQL.session_ a = Some s ->
  respond s (sent w) (op_request op a s) = Return r ->
  nullish r = true ->
  run_op op (Build_Env a w) =
    (Throw TypeError, Build_Env a {| sent := sent w ++ [op_request op a s] |}).
Proof.
  intros Hs Hr Hn.
  destruct op as [[]|close arrayfetch]; cbn in *;
    unfold AnySQL.execute, AnySQL.insert, AnySQL.update, AnySQL.delete,
      AnySQL.select; unfold_steps; cbn; rewrite Hs; cbn;
    rewrite Hr, Hn; reflexivity.
Qed.

Lemma X8_null_response_witness :
  @run_op (mock JUndefined) (Select JUndefined JUndefined)
    (Build_Env anysql0 world0) =
    (Throw TypeError,
     Build_Env anysql0
       {| sent := [op_request (Select JUndefined JUndefined) anysql0
                     session0] |}).
Proof.
  exact (@X8_null_response (mock JUndefined) (Select JUndefined JUndefined)
           anysql0 session0 world0 JUndefined eq_refl eq_refl eq_refl).
Defined.

Lemma truthy_prop_not_nullish (r : JsVal) (k : string) :
  truthy (prop r k) = true -> nullish r = false.
Proof.
  intros Ht. apply (prop_defined_not_nullish r k). intros Hu.
  rewrite Hu in Ht. discriminate.
Qed.

(** X9: when [describe()] rejects, or when it resolves but the table has no
    session, [Insert.execute] throws (the reason of [describe], or a
    TypeError) without handing any request to [invoke]; the affected count
    is 0 and the cursor null by then, while [failed()] and
    [getErrorMessage()] still report the call before. *)
Theorem X9_insert_stops_before_invoke `{Transport} `{Describe}
    (record : JsRecord) (i : Insert.t) (w w1 : World) (tb : Table) (e : Exn) :
  describe (Insert.table_ i) w = (Throw e, (tb, w1)) \/
  (describe (Insert.table_ i) w = (Return tt, (tb, w1)) /\
   Insert.session_ i = None /\ e = TypeError) ->
  Insert.execute record (Build_Env i w) =
    (Throw e,
     Build_Env
       (Insert.mk (Insert.errm_ i) (Insert.success_ i) (JNum 0) None tb
          (Insert.source_ i) (Insert.session_ i) (Insert.savepoint_ i)
          (Insert.returning_ i))
       w1).
Proof.
  intros [Hd|(Hd & Hs & ->)];
    unfold Insert.execute, Insert.await_describe; unfold_steps; cbn;
    rewrite Hd; cbn; [reflexivity|].
  rewrite Hs; cbn.
  unfold Insert.set_table, Insert.set_cursor, Insert.set_affected; cbn.
  rewrite ?Hs. reflexivity.
Qed.

Lemma X9_insert_stops_before_invoke_witness :
  @Insert.execute (mock (inserted 1)) described record0
    (Build_Env
       (Insert.set_affected (JNum 4)
          (Insert.constructor
             {| table_source := JStr "emp"; table_session := None;
                table_bindvalues := JNull; getColumnDefinitions := ∅ |}))
       world0) =
    (Throw TypeError,
     Build_Env
       (Insert.constructor
          {| table_source := JStr "emp"; table_session := None;
             table_bindvalues := JNull; getColumnDefinitions := ∅ |})
       world0).
Proof.
  exact (@X9_insert_stops_before_invoke (mock (inserted 1)) described record0
           (Insert.set_affected (JNum 4)
              (Insert.constructor
                 {| table_source := JStr "emp"; table_session := None;
                    table_bindvalues := JNull; getColumnDefinitions := ∅ |}))
           world0 world0
           {| table_source := JStr "emp"; table_session := None;
              table_bindvalues := JNull; getColumnDefinitions := ∅ |}
           TypeError
           (or_intror (conj eq_refl (conj eq_refl eq_refl)))).
Defined.

(** X10: when [invoke] rejects, or resolves to null or undefined,
    [Insert.execute] throws (the reason of the rejection, or a TypeError)
    after its one request has gone out; the affected count is 0 and the
    cursor null, and [failed()] and [getErrorMessage()] still report the
    call before. *)
Theorem X10_insert_without_response `{Transport} `{Describe}
    (record : JsRecord) (i : Insert.t) (s : Session) (w w1 : World)
    (tb : Table) (e : Exn) :
  Insert.session_ i = Some s ->
  describe (Insert.table_ i) w = (Return tt, (tb, w1)) ->
  let request := Insert.execute_request (Insert.set_table tb i) s record in
  respond s (sent w1) request = Throw e \/
  (exists r : JsVal,
      respond s (sent w1) request = Return r /\ nullish r = true /\
      e = TypeError) ->
  Insert.execute record (Build_Env i w) =
    (Throw e,
     Build_Env
       (Insert.mk (Insert.errm_ i) (Insert.success_ i) (JNum 0) None tb
          (Insert.source_ i) (Insert.session_ i) (Insert.savepoint_ i)
          (Insert.returning_ i))
       {| sent := sent w1 ++ [request] |}).
Proof.
  intros Hs Hd request [Hr|(r & Hr & Hn & ->)]; subst request;
    unfold Insert.execute, Insert.await_describe; unfold_steps; cbn;
    rewrite Hd; cbn; rewrite Hs; cbn;
    rewrite execute_request_reset, Hr; rewrite ?Hn; cbn;
    unfold Insert.set_table, Insert.set_cursor, Insert.set_affected; cbn;
    rewrite ?Hs; reflexivity.
Qed.

Lemma X10_insert_without_response_witness :
  let transport := scripted [inserted 1] in
  let st1 := snd (@Insert.execute transport described record0
                    (Build_Env insert0 world0)) in
  Insert.affected (this st1) = JNum 1 /\
  fst (@Insert.execute transport described record0 st1) = Throw TypeError /\
  Insert.affected
    (this (snd (@Insert.execute transport described record0 st1))) = JNum 0 /\
  Insert.failed
    (this (snd (@Insert.execute transport described record0 st1))) = false.
Proof.
  split; [reflexivity|].
  pose proof (@X10_insert_without_response (scripted [inserted 1]) described
                record0
                (this (snd (@Insert.execute (scripted [inserted 1]) described
                              record0 (Build_Env insert0 world0))))
                session0
                (world (snd (@Insert.execute (scripted [inserted 1]) described
                               record0 (Build_Env insert0 world0))))
                (world (snd (@Insert.execute (scripted [inserted 1]) described
                               record0 (Build_Env insert0 world0))))
                table0 TypeError eq_refl eq_refl (or_introl eq_refl)) as Hx.
  split; [exact (f_equal fst Hx)|].
  split; [exact (f_equal (fun res => Insert.affected (this (snd res))) Hx)|].
  exact (f_equal (fun res => Insert.failed (this (snd res))) Hx).
Defined.

(** ** [select] on a success response *)

Lemma select_column_bad {S : Type} (d : JsVal)
    (acc : list JsVal * gmap string ColumnDefinition) (st : S) :
  descriptor_ok d = false ->
  AnySQL.select_column d acc st = (Throw TypeError, st).
Proof.
  destruct acc as [cols columns]. unfold descriptor_ok. intros Hd.
  unfold AnySQL.select_column; unfold_steps.
  destruct (nullish d); cbn; [reflexivity|].
  destruct (prop d "name"); try reflexivity. discriminate.
Qed.

Lemma forEach_select_column_bad {S : Type} (ds : list JsVal)
    (acc : list JsVal * gmap string ColumnDefinition) (st : S) :
  forallb descriptor_ok ds = false ->
  forEach_items ds AnySQL.select_column acc st = (Throw TypeError, st).
Proof.
  revert acc; induction ds as [|d ds IH]; intros [cols columns] Hds;
    [discriminate|].
  cbn [forEach_items]. unfold bind at 1.
  destruct (descriptor_ok d) eqn:Hd.
  - rewrite (select_column_ok d cols columns st Hd).
    apply IH. cbn in Hds. rewrite Hd in Hds. exact Hds.
  - rewrite (select_column_bad d (cols, columns) st Hd). reflexivity.
Qed.

(** X11: on a response whose [success] is truthy, [select] returns a cursor
    exactly when [response.columns] is an array of descriptors that each
    have a string name; otherwise (no columns, a null entry, an entry
    without a name) it throws a TypeError.  In both cases the success and
    the message of the response are recorded first, so that [failed()] is
    false even when the call threw, and the affected count is untouched. *)
Theorem X11_select_needs_columns `{Transport} (close arrayfetch : JsVal)
    (a : AnySQL.t) (s : Session) (w : World) (r : JsVal) :
  AnySQL.session_ a = Some s ->
  respond s (sent w) (AnySQL.select_request a s close arrayfetch) = Return r ->
  truthy (prop r "success") = true ->
  let res := AnySQL.select close arrayfetch (Build_Env a w) in
  (columns_ok r = true -> exists c : Cursor, fst res = Return (Some c)) /\
  (columns_ok r = false -> fst res = Throw TypeError) /\
  AnySQL.failed (this (snd res)) = false /\
  AnySQL.getErrorMessage (this (snd res)) = prop r "message" /\
  AnySQL.affected (this (snd res)) = AnySQL.affected a.
Proof.
  intros Hs Hr Ht res.
  pose proof (truthy_prop_not_nullish r "success" Ht) as Hn.
  split; [|split].
  - unfold columns_ok. intros Hok.
    destruct (prop r "columns") as [| | | | |ds|] eqn:Hc; try discriminate.
    eexists.
    exact (select_returns_cursor close arrayfetch a s w r ds Hs Hr Ht Hc Hok).
  - unfold columns_ok. intros Hbad. subst res.
    unfold AnySQL.select; unfold_steps; cbn.
    rewrite Hs; cbn in *; rewrite Hr, Hn; cbn. rewrite Ht; cbn.
    unfold forEach.
    destruct (prop r "columns") as [| | | | |ds|]; try reflexivity.
    rewrite (forEach_select_column_bad ds _ _ Hbad). reflexivity.
  - subst res. rewrite (select_state close arrayfetch a s w r Hs Hr Hn).
    unfold AnySQL.failed; cbn. rewrite Ht. repeat split.
Qed.

Lemma X11_select_needs_columns_witness :
  let res := @AnySQL.select (mock (ok_response 0)) JUndefined JUndefined
               (Build_Env anysql0 world0) in
  fst res = Throw TypeError /\
  AnySQL.failed (this (snd res)) = false.
Proof.
  destruct (@X11_select_needs_columns (mock (ok_response 0)) JUndefined
              JUndefined anysql0 session0 world0 (ok_response 0)
              eq_refl eq_refl eq_refl) as (_ & Hthrow & Hfailed & _).
  exact (conj (Hthrow eq_refl) Hfailed).
Defined.

Lemma lower_ascii_idempotent (c : ascii) :
  lower_ascii (lower_ascii c) = lower_ascii c.
Proof. destruct c as [[] [] [] [] [] [] [] []]; reflexivity. Qed.

Lemma toLowerCase_idempotent (x : string) :
  toLowerCase (toLowerCase x) = toLowerCase x.
Proof.
  induction x as [|c x IH]; cbn; [reflexivity|].
  rewrite lower_ascii_idempotent, IH. reflexivity.
Qed.

Lemma column_key_lower (d : JsVal) :
  toLowerCase (column_key d) = column_key d.
Proof.
  unfold column_key. destruct (prop d "name"); try reflexivity.
  apply toLowerCase_idempotent.
Qed.

Lemma column_map_snoc (ds : list JsVal) (d : JsVal)
    (m : gmap string ColumnDefinition) :
  column_map (ds ++ [d]) m = <[column_key d := coldef_of d]> (column_map ds m).
Proof. unfold column_map. rewrite fold_left_app. reflexivity. Qed.

(** Of the descriptors that share a key, the last one is kept. *)
Lemma column_map_lookup (ds : list JsVal) (key : string) :
  column_map ds ∅ !! key =
    coldef_of <$> last (filter (fun d => column_key d = key) ds).
Proof.
  induction ds as [|d ds IH] using rev_ind; [reflexivity|].
  rewrite column_map_snoc, filter_app.
  destruct (decide (column_key d = key)) as [Hk|Hk].
  - rewrite Hk, lookup_insert_eq.
    rewrite (filter_cons_True (fun d => column_key d = key) d []) by exact Hk.
    rewrite filter_nil, last_snoc. reflexivity.
  - rewrite lookup_insert_ne by exact Hk.
    rewrite (filter_cons_False (fun d => column_key d = key) d []) by exact Hk.
    rewrite filter_nil, app_nil_r. exact IH.
Qed.

Lemma column_map_dom (ds : list JsVal) :
  dom (column_map ds ∅) = list_to_set (column_key <$> ds).
Proof.
  induction ds as [|d ds IH] using rev_ind; [apply dom_empty_L|].
  rewrite column_map_snoc, dom_insert_L, IH, fmap_app, list_to_set_app_L.
  cbn. rewrite (right_id_L ∅ (∪)). apply (comm_L (∪)).
Qed.

Lemma column_map_size (ds : list JsVal) :
  (size (column_map ds ∅) <= length ds)%nat.
Proof.
  induction ds as [|d ds IH] using rev_ind;
    [cbn; rewrite map_size_empty; lia|].
  rewrite column_map_snoc, map_size_insert, length_app.
  cbn [length]. rewrite Nat.add_1_r.
  destruct (column_map ds ∅ !! column_key d); unfold id; lia.
Qed.

Lemma assoc_setf_ne (k k' : string) (v : JsVal) (fs : list (string * JsVal)) :
  k <> k' -> assoc k (setf k' v fs) = assoc k fs.
Proof.
  intros Hk. apply String.eqb_neq in Hk.
  induction fs as [|[k0 v0] fs IH]; cbn.
  - rewrite Hk. reflexivity.
  - destruct (String.eqb k' k0) eqn:Hk0; cbn.
    + apply String.eqb_eq in Hk0. subst k0. rewrite Hk. reflexivity.
    + destruct (String.eqb k k0); [reflexivity|exact IH].
Qed.

Lemma ascii_named_descriptor_ok (ds : list JsVal) :
  forallb ascii_named ds = true -> forallb descriptor_ok ds = true.
Proof.
  induction ds as [|d ds IH]; cbn; [reflexivity|].
  intros Hds. apply andb_prop in Hds as [Hd Hds].
  rewrite (IH Hds), andb_true_r.
  unfold ascii_named in Hd. unfold descriptor_ok.
  destruct (prop d "name"); try discriminate. reflexivity.
Qed.

(** X12: on a success response whose columns are descriptors with ASCII
    names, [select] returns a cursor bound to the session whose column map
    has one entry per distinct lower-cased name: every key is lower-case,
    the entry of a key is the definition filled from the last descriptor
    with that lower-cased name, so names that differ in case only share one
    entry and the map has at most as many entries as there are descriptors.
    The response handed to the cursor has its [columns] replaced by the list
    of the names as received, in order, and every other member untouched. *)
Theorem X12_select_column_map `{Transport} (close arrayfetch : JsVal)
    (a : AnySQL.t) (s : Session) (w : World) (r : JsVal) (ds : list JsVal) :
  AnySQL.session_ a = Some s ->
  respond s (sent w) (AnySQL.select_request a s close arrayfetch) = Return r ->
  truthy (prop r "success") = true ->
  prop r "columns" = JArr ds ->
  forallb ascii_named ds = true ->
  exists c : Cursor,
    fst (AnySQL.select close arrayfetch (Build_Env a w)) = Return (Some c) /\
    cursor_session c = s /\
    (forall key : string,
        cursor_columns c !! key =
          coldef_of <$> last (filter (fun d => column_key d = key) ds)) /\
    dom (cursor_columns c) = list_to_set (column_key <$> ds) /\
    (forall key : string,
        is_Some (cursor_columns c !! key) -> toLowerCase key = key) /\
    (size (cursor_columns c) <= length ds)%nat /\
    prop (cursor_response c) "columns" =
      JArr (map (fun d => prop d "name") ds) /\
    (forall k : string,
        k <> "columns" -> prop (cursor_response c) k = prop r k).
Proof.
  intros Hs Hr Ht Hc Hascii.
  pose proof (ascii_named_descriptor_ok ds Hascii) as Hds. eexists.
  split;
    [exact (select_returns_cursor close arrayfetch a s w r ds Hs Hr Ht Hc Hds)|].
  cbn [cursor_session cursor_columns cursor_response].
  split; [reflexivity|].
  split; [apply column_map_lookup|].
  split; [apply column_map_dom|].
  split.
  { intros key Hkey. apply elem_of_dom in Hkey.
    rewrite column_map_dom in Hkey.
    apply elem_of_list_to_set, list_elem_of_fmap in Hkey as (d & -> & _).
    apply column_key_lower. }
  split; [apply column_map_size|].
  split.
  - apply (prop_set_path_eq r "columns" "columns"). congruence.
  - intros k Hk. destruct r as [| | | | | |fs]; try reflexivity.
    cbn. apply assoc_setf_ne. exact Hk.
Qed.

Lemma X12_select_column_map_witness :
  let r := JObj [("success", JBool true);
                 ("columns", JArr [JObj [("name", JStr "Id")];
                                   JObj [("name", JStr "ID");
                                         ("type", JStr "integer")]]);
                 ("rows", JArr [JArr [JNum 1; JNum 2]])] in
  exists c : Cursor,
    fst (@AnySQL.select (mock r) JUndefined JUndefined
           (Build_Env anysql0 world0)) = Return (Some c) /\
    cursor_columns c !! "id" =
      Some {| name := JStr "ID"; type := JStr "integer";
              sqltype := JUndefined; precision := JUndefined |} /\
    (size (cursor_columns c) <= 2)%nat /\
    prop (cursor_response c) "columns" = JArr [JStr "Id"; JStr "ID"] /\
    prop (cursor_response c) "rows" = JArr [JArr [JNum 1; JNum 2]].
Proof.
  intros r.
  destruct (@X12_select_column_map (mock r) JUndefined JUndefined anysql0
              session0 world0 r
              [JObj [("name", JStr "Id")];
               JObj [("name", JStr "ID"); ("type", JStr "integer")]]
              eq_refl eq_refl eq_refl eq_refl eq_refl)
    as (c & Hc & _ & Hlook & _ & _ & Hsize & Hcols & Hrest).
  exists c.
  split; [exact Hc|].
  split; [exact (Hlook "id")|].
  split; [exact Hsize|].
  split; [exact Hcols|].
  refine (Hrest "rows" _). discriminate.
Defined.

(** ** A response without a true [success] *)

(** X13: the methods of AnySQL test the truthiness of [response.success]: on
    an object whose [success] is falsy in any way (false, absent, null, 0,
    the empty string) the call does not throw, the mutating methods give
    back that value as it is, [select] gives back null, [failed()] is true,
    the message is the response's (undefined when it has none) and the
    affected count is not touched. *)
Theorem X13_falsy_success `{Transport} (op : Op) (a : AnySQL.t) (s : Session)
    (w : World) (r : JsVal) :
  AnySQL.session_ a = Some s ->
  respond s (sent w) (op_request op a s) = Return r ->
  nullish r = false ->
  truthy (prop r "success") = false ->
  let res := run_op op (Build_Env a w) in
  fst res = Return (declined_result op r) /\
  AnySQL.failed (this (snd res)) = true /\
  AnySQL.getErrorMessage (this (snd res)) = prop r "message" /\
  AnySQL.affected (this (snd res)) = AnySQL.affected a.
Proof.
  intros Hs Hr Hn Ht res. subst res. split.
  - destruct op as [v|close arrayfetch]; cbn in *; unfold bind.
    + rewrite (run_mutating_returns v a s w r Hs Hr Hn). reflexivity.
    + pose proof (select_returns_null close arrayfetch a s w r Hs Hr Hn Ht)
        as Hnull.
      destruct (AnySQL.select close arrayfetch (Build_Env a w))
        as [[c|e] st']; cbn in *; [congruence|discriminate].
  - rewrite (run_op_state op a s w r Hs Hr Hn); cbn.
    unfold AnySQL.failed.
    destruct op as [v|close arrayfetch]; cbn; unfold after_mutating;
      rewrite ?Ht, ?andb_false_r; cbn; rewrite ?Ht; repeat split.
Qed.

Lemma X13_falsy_success_witness :
  let res := @run_op (mock (JObj [])) (Mutate VDelete)
               (Build_Env (AnySQL.set_affected (JNum 3) anysql0) world0) in
  fst res = Return (Flag JUndefined) /\
  AnySQL.failed (this (snd res)) = true /\
  AnySQL.getErrorMessage (this (snd res)) = JUndefined /\
  AnySQL.affected (this (snd res)) = JNum 3.
Proof.
  exact (@X13_falsy_success (mock (JObj [])) (Mutate VDelete)
           (AnySQL.set_affected (JNum 3) anysql0) session0 world0 (JObj [])
           eq_refl eq_refl eq_refl eq_refl).
Defined.

(** ** The return columns of an Insert *)

Lemma insert_request_returning (i : Insert.t) (s : Session)
    (record : JsRecord) :
  truthy (Insert.returning_ i) = true ->
  prop (prop (prop (Insert.execute_request i s record) "Table") "insert()")
       "returning" = Insert.returning_ i.
Proof.
  intros Hret. unfold Insert.execute_request. rewrite Hret.
  destruct (truthy (table_bindvalues (Insert.table_ i)));
    destruct (nullish (Insert.savepoint_ i)); reflexivity.
Qed.

(** X14: [setReturnColumns] keeps an array as it is and wraps any other
    value in a one-element array; what it has stored is always truthy, so
    from then on the request carries it as [returning] inside ["insert()"]
    (the empty array too) and a success builds a cursor over exactly those
    columns. *)
Theorem X14_return_columns `{Transport} `{Describe} (record : JsRecord)
    (cols : JsVal) (i : Insert.t) (s : Session) (w w1 : World) (tb : Table)
    (r : JsVal) :
  Insert.session_ i = Some s ->
  describe (Insert.table_ i) w = (Return tt, (tb, w1)) ->
  let i' := Insert.setReturnColumns cols i in
  let request := Insert.execute_request (Insert.set_table tb i') s record in
  respond s (sent w1) request = Return r ->
  truthy (prop r "success") = true ->
  let res := Insert.execute record (Build_Env i' w) in
  Insert.returning_ i' =
    match cols with
    | JArr items => JArr items
    | single => JArr [single]
    end /\
  prop (prop (prop request "Table") "insert()") "returning" =
    Insert.returning_ i' /\
  Insert.getReturnValues (this (snd res)) =
    Some {| cursor_session := s;
            cursor_columns := getColumnDefinitions tb;
            cursor_response :=
              JObj [("more", JBool false); ("rows", prop r "rows");
                    ("columns", Insert.returning_ i')] |}.
Proof.
  intros Hs Hd i' request Hr Ht res. subst res request.
  pose proof (truthy_prop_not_nullish r "success" Ht) as Hn.
  assert (Hs' : Insert.session_ i' = Some s) by exact Hs.
  assert (Hret : truthy (Insert.returning_ i') = true).
  { subst i'. cbn. destruct cols; reflexivity. }
  split; [subst i'; cbn; destruct cols; reflexivity|].
  split.
  - exact (insert_request_returning (Insert.set_table tb i') s record Hret).
  - rewrite (insert_execute_returns record i' s w w1 tb r Hd Hs' Hr Hn).
    cbn [snd this Insert.getReturnValues Insert.cursor_ after_insert].
    rewrite Ht, Hret. reflexivity.
Qed.

Lemma X14_return_columns_witness :
  let i' := Insert.setReturnColumns (JArr []) (Insert.constructor table0) in
  let request := Insert.execute_request i' session0 record0 in
  Insert.returning_ i' = JArr [] /\
  prop (prop (prop request "Table") "insert()") "returning" = JArr [] /\
  Insert.getReturnValues
    (this (snd (@Insert.execute (mock (inserted 1)) described record0
                  (Build_Env i' world0)))) =
    Some {| cursor_session := session0;
            cursor_columns := ∅;
            cursor_response :=
              JObj [("more", JBool false); ("rows", JArr [JArr [JNum 7]]);
                    ("columns", JArr [])] |}.
Proof.
  exact (@X14_return_columns (mock (inserted 1)) described record0 (JArr [])
           (Insert.constructor table0) session0 world0 world0 table0
           (inserted 1) eq_refl eq_refl eq_refl eq_refl).
Defined.
